(** * PIVX address codec (ts_src/pivx): prefix matching, encode/decode, output scripts

    A shallow embedding of [ts_src/pivx/types.ts], [ts_src/pivx/network.ts] and
    [ts_src/pivx/address.ts].

    - A [Uint8Array] is a [list byte]; a JavaScript [number] is a [Z]
      (the numbers of this module are byte values, lengths and opcodes).
    - A thrown [Error] is a value of [Error]; [message] gives its text.
    - Every function runs in the monad [M], which carries the result (a value or
      the thrown error) and the log of the operations the call performed on
      buffers and on the external libraries, in program order. *)

From Stdlib Require Import ZArith String Ascii Bool Lia.
From Stdlib.Strings Require Import Byte.
From Stdlib Require Import List.
From Stdlib Require DecimalString HexadecimalString.
Import ListNotations.

Local Open Scope string_scope.
Local Open Scope list_scope.

(** ** Bytes and numbers *)

Definition Uint8Array : Type := list byte.

(** The number read from a typed array at a position. *)
Definition byte_to_Z (b : byte) : Z := Z.of_N (Byte.to_N b).

(** The conversion a [Uint8Array] applies to a number stored into it:
    the value modulo 2^8. *)
Definition ToUint8 (n : Z) : byte :=
  match Byte.of_N (Z.to_N (n mod 256)) with
  | Some b => b
  | None => x00
  end.

(** [Array.from(bytes)]: the bytes as an array of numbers. *)
Definition Array_from (bytes : Uint8Array) : list Z := map byte_to_Z bytes.

(** [n.toString(16)] and [`${n}`] for the non-negative numbers printed here. *)
Definition toString16 (n : Z) : string :=
  HexadecimalString.NilZero.string_of_uint (N.to_hex_uint (Z.to_N n)).

Definition toString10 (n : nat) : string :=
  DecimalString.NilZero.string_of_uint (Nat.to_uint n).

Fixpoint repeat_string (s : string) (n : nat) : string :=
  match n with
  | O => EmptyString
  | S k => s ++ repeat_string s k
  end.

(** [s.padStart(n, fill)] for a one-character [fill]. *)
Definition padStart (s : string) (n : nat) (fill : string) : string :=
  repeat_string fill (n - String.length s) ++ s.

(** ** types.ts *)

(** [type VersionPrefix = number | number[]] *)
Inductive VersionPrefix : Type :=
| VNum (n : Z)
| VArr (bytes : list Z).

Record PivxPrefixes : Type := {
  pubKeyHash : VersionPrefix;
  scriptHash : VersionPrefix;
  staking : VersionPrefix;
  exchange : VersionPrefix
}.

Record Bip32 : Type := { bip32_public : Z; bip32_private : Z }.

(** [interface PivxNetwork extends Network]: the fields of [Network] as the
    constant [pivx] fills them, and [pivxPrefixes].  The fields [pubKeyHash]
    and [scriptHash] of [Network] are [net_pubKeyHash] and [net_scriptHash]
    here, the plain names being those of [PivxPrefixes]. *)
Record PivxNetwork : Type := {
  messagePrefix : string;
  bech32 : string;
  bip32 : Bip32;
  net_pubKeyHash : Z;
  net_scriptHash : Z;
  wif : Z;
  pivxPrefixes : PivxPrefixes
}.

(** [type PivxAddressType = 'p2pkh' | 'p2sh' | 'staking' | 'exchange']: a string
    at run time. *)
Definition PivxAddressType : Type := string.

Record ParsedPivxAddress : Type := {
  type : PivxAddressType;
  version : VersionPrefix;
  hash : Uint8Array
}.

(** ** network.ts *)

Definition pivx : PivxNetwork := {|
  messagePrefix :=
    String (ascii_of_nat 24) "Darknet Signed Message:"
      ++ String (ascii_of_nat 10) EmptyString;
  bech32 := EmptyString; (* PIVX doesn't use bech32 currently *)
  bip32 := {| bip32_public := 0x022d2533; bip32_private := 0x0221312b |};
  net_pubKeyHash := 0x1e;
  net_scriptHash := 0x0d;
  wif := 0xd4;
  pivxPrefixes := {|
    pubKeyHash := VNum 0x1e;
    scriptHash := VNum 0x0d;
    staking := VNum 0x3f;
    exchange := VArr [0x01; 0xb9; 0xa2]
  |}
|}%Z.

(** ** Script chunks (the argument of [bscript.compile]) *)

Inductive Chunk : Type :=
| Op (opcode : Z)
| Push (data : Uint8Array).

(** The entries of the opcode table [OPS] that address.ts reads.  The table
    is declared in ops.ts, which is not among the sources: the functions
    below take it as a parameter. *)
Record OpcodeTable : Type := {
  OP_DUP : Z;
  OP_HASH160 : Z;
  OP_EQUALVERIFY : Z;
  OP_CHECKSIG : Z;
  OP_EQUAL : Z
}.

(** ** Errors and the log *)

(** One constructor for each [throw] of address.ts, and one for each way the
    primitives it calls can throw. *)
Inductive Error : Type :=
| Bs58checkError (msg : string)          (* thrown by bs58check.decode *)
| AddressPayloadTooShort
| UnknownPivxAddressPrefix (singleByteVersion : Z)
| InvalidHashLength (got : nat)          (* parsePivxBase58Address *)
| HashMustBe20Bytes (got : nat)          (* encodePivxAddress *)
| UnknownPivxAddressType (t : string)
| ValueOutOfRange (value : Z)            (* tools.writeUInt8 *)
| OffsetOutOfBounds                      (* tools.writeUInt8, Uint8Array.set *)
| TypeErrorUndefined.                    (* a method called on undefined *)

(** The text of the error.  The text of the last three, thrown by the
    primitives, is the library's and is only summarised here. *)
Definition message (e : Error) : string :=
  match e with
  | Bs58checkError msg => msg
  | AddressPayloadTooShort => "Address payload too short"
  | UnknownPivxAddressPrefix v =>
      "Unknown PIVX address prefix: 0x" ++ padStart (toString16 v) 2 "0"
  | InvalidHashLength got =>
      "Invalid hash length: expected 20 bytes, got " ++ toString10 got
  | HashMustBe20Bytes got => "Hash must be 20 bytes, got " ++ toString10 got
  | UnknownPivxAddressType t => "Unknown PIVX address type: " ++ t
  | ValueOutOfRange _ => "The value of value is out of range"
  | OffsetOutOfBounds => "Offset is outside the bounds of Uint8Array"
  | TypeErrorUndefined => "Cannot read properties of undefined"
  end.

Inductive Event : Type :=
| EvDecode (address : string)                 (* bs58check.decode(address) *)
| EvEncode (payload : Uint8Array)             (* bs58check.encode(payload) *)
| EvAlloc (n : nat)                           (* new Uint8Array(n) *)
| EvIndex (i : nat)                           (* payload[i] *)
| EvSlice (start : nat) (stop : option nat)   (* payload.slice(start, stop) *)
| EvCompile (chunks : list Chunk).            (* bscript.compile(chunks) *)

Definition M (A : Type) : Type := (list Event * (Error + A))%type.

Definition ret {A : Type} (a : A) : M A := ([], inr a).
Definition throw {A : Type} (e : Error) : M A := ([], inl e).
Definition emit (ev : Event) : M unit := ([ev], inr tt).

Definition bind {A B : Type} (m : M A) (f : A -> M B) : M B :=
  match m with
  | (t, inl e) => (t, inl e)
  | (t, inr a) => let '(t', r) := f a in (t ++ t', r)
  end.

Notation "x <- m ;; k" := (bind m (fun x => k))
  (at level 61, m at next level, right associativity).
Notation "m ;;; k" := (bind m (fun _ => k))
  (at level 61, right associativity).

Definition trace {A : Type} (m : M A) : list Event := fst m.
Definition result {A : Type} (m : M A) : Error + A := snd m.

(** ** Uint8Array operations *)

(** [new Uint8Array(n)] *)
Definition newUint8Array (n : nat) : M Uint8Array :=
  emit (EvAlloc n) ;;; ret (repeat x00 n).

(** [a[i]]: [None] is [undefined]. *)
Definition index (a : Uint8Array) (i : nat) : M (option Z) :=
  emit (EvIndex i) ;;; ret (option_map byte_to_Z (nth_error a i)).

(** [a.slice(start)] and [a.slice(start, stop)] for non-negative bounds. *)
Definition slice (a : Uint8Array) (start : nat) (stop : option nat) : M Uint8Array :=
  emit (EvSlice start stop) ;;;
  ret (match stop with
       | None => skipn start a
       | Some e => skipn start (firstn e a)
       end).

(** The bytes of [target] with [src] written at [offset]. *)
Definition overwrite (target src : Uint8Array) (offset : nat) : Uint8Array :=
  firstn offset target ++ src ++ skipn (offset + length src) target.

(** [target.set(src, offset)] with a typed-array source. *)
Definition set_bytes (target src : Uint8Array) (offset : nat) : M Uint8Array :=
  if (length target <? offset + length src)%nat then throw OffsetOutOfBounds
  else ret (overwrite target src offset).

(** [target.set(src, offset)] with a [number[]] source: each number is
    converted as it is stored. *)
Definition set_numbers (target : Uint8Array) (src : list Z) (offset : nat) : M Uint8Array :=
  set_bytes target (map ToUint8 src) offset.

(** [tools.writeUInt8(buffer, offset, value)] of the package uint8array-tools:
    it refuses an offset outside the buffer and a value above 0xff. *)
Definition writeUInt8 (buffer : Uint8Array) (offset : nat) (value : Z) : M Uint8Array :=
  if (length buffer <? offset + 1)%nat then throw OffsetOutOfBounds
  else if (0xff <? value)%Z then throw (ValueOutOfRange value)
  else ret (overwrite buffer [ToUint8 value] offset).

(** ** address.ts *)

(** [a.every((val, idx) => val === b[idx])], from position [idx] on. *)
Fixpoint every_from (idx : nat) (a b : list Z) : bool :=
  match a with
  | [] => true
  | val :: rest =>
      match nth_error b idx with
      | Some x => (val =? x)%Z
      | None => false (* b[idx] is undefined *)
      end && every_from (S idx) rest b
  end.

Definition versionEquals (a b : VersionPrefix) : bool :=
  match a, b with
  | VNum x, VNum y => (x =? y)%Z
  | VArr xs, VArr ys => (length xs =? length ys)%nat && every_from 0 xs ys
  | _, _ => false
  end.

(** [typeof p === 'number'] *)
Definition typeofNumber (p : VersionPrefix) : bool :=
  match p with
  | VNum _ => true
  | VArr _ => false
  end.

(** [v === p] for a number [v]. *)
Definition strictEquals (v : Z) (p : VersionPrefix) : bool :=
  match p with
  | VNum n => (v =? n)%Z
  | VArr _ => false
  end.

(** The object [{ version, hash, type }] that [extractVersion] returns. *)
Record Extracted : Type := {
  ex_version : VersionPrefix;
  ex_hash : Uint8Array;
  ex_type : PivxAddressType
}.

Definition extractVersion (payload : Uint8Array) (network : PivxNetwork) : M Extracted :=
  let prefixes := pivxPrefixes network in
  (* Check 3-byte exchange prefix first (most specific) *)
  matched <-
    match exchange prefixes with
    | VArr ex =>
        if (length ex + 20 <=? length payload)%nat then
          head <- slice payload 0 (Some (length ex)) ;;
          let prefixBytes := Array_from head in
          if versionEquals (VArr prefixBytes) (exchange prefixes) then
            hash <- slice payload (length ex) None ;;
            ret (Some {| ex_version := exchange prefixes;
                         ex_hash := hash;
                         ex_type := "exchange" |})
          else ret None
        else ret None
    | VNum _ => ret None
    end ;;
  match matched with
  | Some r => ret r
  | None =>
      (* Check 1-byte prefixes *)
      if (length payload <? 21)%nat then throw AddressPayloadTooShort
      else
        byte0 <- index payload 0 ;;
        hash <- slice payload 1 None ;;
        match byte0 with
        | None => throw TypeErrorUndefined
        | Some singleByteVersion =>
            if typeofNumber (pubKeyHash prefixes)
               && strictEquals singleByteVersion (pubKeyHash prefixes)
            then ret {| ex_version := VNum singleByteVersion;
                        ex_hash := hash; ex_type := "p2pkh" |}
            else if typeofNumber (scriptHash prefixes)
                    && strictEquals singleByteVersion (scriptHash prefixes)
            then ret {| ex_version := VNum singleByteVersion;
                        ex_hash := hash; ex_type := "p2sh" |}
            else if typeofNumber (staking prefixes)
                    && strictEquals singleByteVersion (staking prefixes)
            then ret {| ex_version := VNum singleByteVersion;
                        ex_hash := hash; ex_type := "staking" |}
            else throw (UnknownPivxAddressPrefix singleByteVersion)
        end
  end.

Section External.

(** The external Base58Check primitive: [bs58check.encode] returns a string;
    [bs58check.decode] returns the payload or throws (the message of the
    error on the left). *)
Variable encode : Uint8Array -> string.
Variable decode : string -> string + Uint8Array.

(** The script compiler [bscript.compile] and the opcode table [OPS] of
    script.ts and ops.ts. *)
Variable OPS : OpcodeTable.
Variable bscript_compile : list Chunk -> Uint8Array.

Definition bs58check_encode (payload : Uint8Array) : M string :=
  emit (EvEncode payload) ;;; ret (encode payload).

Definition bs58check_decode (address : string) : M Uint8Array :=
  emit (EvDecode address) ;;;
  match decode address with
  | inl msg => throw (Bs58checkError msg)
  | inr payload => ret payload
  end.

Definition compile (chunks : list Chunk) : M Uint8Array :=
  emit (EvCompile chunks) ;;; ret (bscript_compile chunks).

Definition parsePivxBase58Address (address : string) (network : PivxNetwork)
  : M ParsedPivxAddress :=
  (* Decode the Base58Check address *)
  payload <- bs58check_decode address ;;
  (* Extract version and hash based on known prefixes *)
  r <- extractVersion payload network ;;
  let version := ex_version r in
  let hash := ex_hash r in
  let type := ex_type r in
  (* Validate hash length (should be 20 bytes for standard addresses) *)
  if negb (length hash =? 20)%nat then throw (InvalidHashLength (length hash))
  else ret {| type := type; version := version; hash := hash |}.

Definition encodePivxAddress (hash : Uint8Array) (version : VersionPrefix) : M string :=
  if negb (length hash =? 20)%nat then throw (HashMustBe20Bytes (length hash))
  else
    payload <-
      match version with
      | VNum v =>
          (* Single-byte version prefix *)
          payload <- newUint8Array 21 ;;
          payload <- writeUInt8 payload 0 v ;;
          set_bytes payload hash 1
      | VArr vs =>
          (* Multi-byte version prefix *)
          payload <- newUint8Array (length vs + length hash) ;;
          payload <- set_numbers payload vs 0 ;;
          set_bytes payload hash (length vs)
      end ;;
    bs58check_encode payload.

Definition encodePivxExchangeAddress (hash : Uint8Array) (network : PivxNetwork) : M string :=
  encodePivxAddress hash (exchange (pivxPrefixes network)).

Definition encodePivxStakingAddress (hash : Uint8Array) (network : PivxNetwork) : M string :=
  encodePivxAddress hash (staking (pivxPrefixes network)).

Definition pivxAddressToOutputScript (address : string) (network : PivxNetwork)
  : M Uint8Array :=
  parsed <- parsePivxBase58Address address network ;;
  if (type parsed =? "p2pkh") || (type parsed =? "staking") then
    (* Standard P2PKH output script *)
    compile [Op (OP_DUP OPS); Op (OP_HASH160 OPS); Push (hash parsed);
             Op (OP_EQUALVERIFY OPS); Op (OP_CHECKSIG OPS)]
  else if type parsed =? "exchange" then
    (* Exchange address output script; 0xe0 is OP_EXCHANGEADDR *)
    compile [Op 0xe0; Op (OP_DUP OPS); Op (OP_HASH160 OPS); Push (hash parsed);
             Op (OP_EQUALVERIFY OPS); Op (OP_CHECKSIG OPS)]
  else if type parsed =? "p2sh" then
    (* P2SH output script *)
    compile [Op (OP_HASH160 OPS); Push (hash parsed); Op (OP_EQUAL OPS)]
  else throw (UnknownPivxAddressType (type parsed)).

Definition toOutputScript (address : string) (network : PivxNetwork) : M Uint8Array :=
  pivxAddressToOutputScript address network.

End External.

(** ** The script compiler *)

(** Modelled from the spec: [bscript.compile] is declared in script.ts, which
    is not among the sources.  The spec gives its contract (a deterministic
    map from a sequence of opcodes and byte-string operands to bytes, with no
    failure on the sequences built here) and the sizes of the three scripts
    for a 20-byte operand (25, 23 and 26 bytes): every opcode is one byte, and
    an operand is one length byte followed by its bytes.  The model is used
    on 20-byte operands only. *)
Definition compileChunk (c : Chunk) : Uint8Array :=
  match c with
  | Op opcode => [ToUint8 opcode]
  | Push data => ToUint8 (Z.of_nat (length data)) :: data
  end.

(** Modelled from the spec: [bscript.compile(chunks)], the chunks one after
    the other. *)
Definition compile_model (chunks : list Chunk) : Uint8Array :=
  concat (map compileChunk chunks).

(** ** Vocabulary of the statements *)

(** The four slots of the prefix registry, with the prefix a registry holds
    in each and the type string [extractVersion] reports for it. *)
Inductive AddressClass : Type :=
| PubKeyHash
| ScriptHash
| Staking
| Exchange.

Definition registered (prefixes : PivxPrefixes) (c : AddressClass) : VersionPrefix :=
  match c with
  | PubKeyHash => pubKeyHash prefixes
  | ScriptHash => scriptHash prefixes
  | Staking => staking prefixes
  | Exchange => exchange prefixes
  end.

Definition typeOfClass (c : AddressClass) : PivxAddressType :=
  match c with
  | PubKeyHash => "p2pkh"
  | ScriptHash => "p2sh"
  | Staking => "staking"
  | Exchange => "exchange"
  end.

Definition knownTypes : list PivxAddressType :=
  ["p2pkh"; "p2sh"; "staking"; "exchange"].

(** The bytes of the registered exchange prefix. *)
Definition exchangeBytes : Uint8Array := [x01; xb9; xa2].

(** The errors [parsePivxBase58Address] can throw. *)
Definition decodeStageError (e : Error) : Prop :=
  match e with
  | Bs58checkError _ | AddressPayloadTooShort
  | UnknownPivxAddressPrefix _ | InvalidHashLength _ => True
  | _ => False
  end.

(** The three script shapes, as chunk sequences. *)
Definition p2pkhChunks (ops : OpcodeTable) (h : Uint8Array) : list Chunk :=
  [Op (OP_DUP ops); Op (OP_HASH160 ops); Push h;
   Op (OP_EQUALVERIFY ops); Op (OP_CHECKSIG ops)].

Definition exchangeChunks (ops : OpcodeTable) (h : Uint8Array) : list Chunk :=
  Op 0xe0 :: p2pkhChunks ops h.

Definition p2shChunks (ops : OpcodeTable) (h : Uint8Array) : list Chunk :=
  [Op (OP_HASH160 ops); Push h; Op (OP_EQUAL ops)].

(** The same shapes as bytes, for a 20-byte operand (0x14 is its length). *)
Definition p2pkhScript (ops : OpcodeTable) (h : Uint8Array) : Uint8Array :=
  [ToUint8 (OP_DUP ops); ToUint8 (OP_HASH160 ops); x14] ++ h
    ++ [ToUint8 (OP_EQUALVERIFY ops); ToUint8 (OP_CHECKSIG ops)].

Definition p2shScript (ops : OpcodeTable) (h : Uint8Array) : Uint8Array :=
  [ToUint8 (OP_HASH160 ops); x14] ++ h ++ [ToUint8 (OP_EQUAL ops)].

(** ** Inputs for running the codec *)

(** A stand-in for the Base58Check primitive, used to run the codec on
    concrete inputs: the address is the payload read as a string, with no
    checksum and no alphabet, so decoding never fails. *)
Definition raw_encode (payload : Uint8Array) : string := string_of_list_byte payload.

Definition raw_decode (address : string) : string + Uint8Array :=
  inr (list_byte_of_string address).

(** A stand-in decoder that rejects the empty string, as a primitive with a
    checksum does. *)
Definition checked_decode (address : string) : string + Uint8Array :=
  match address with
  | EmptyString => inl "Invalid checksum"
  | _ => inr (list_byte_of_string address)
  end.

(** The opcode values of the Bitcoin script format. *)
Definition script_ops : OpcodeTable := {|
  OP_DUP := 0x76;
  OP_HASH160 := 0xa9;
  OP_EQUALVERIFY := 0x88;
  OP_CHECKSIG := 0xac;
  OP_EQUAL := 0x87
|}.

(** A registry whose [pubKeyHash] slot holds 0x01, the first byte of the
    exchange prefix. *)
Definition shadowed : PivxNetwork := {|
  messagePrefix := messagePrefix pivx;
  bech32 := bech32 pivx;
  bip32 := bip32 pivx;
  net_pubKeyHash := 0x01;
  net_scriptHash := net_scriptHash pivx;
  wif := wif pivx;
  pivxPrefixes := {|
    pubKeyHash := VNum 0x01;
    scriptHash := VNum 0x0d;
    staking := VNum 0x3f;
    exchange := VArr [0x01; 0xb9; 0xa2]
  |}
|}%Z.

(** ** Vocabulary of the further statements *)

(** The bytes a version prefix takes at the head of a payload. *)
Definition prefixBytes (version : VersionPrefix) : Uint8Array :=
  match version with
  | VNum v => [ToUint8 v]
  | VArr vs => map ToUint8 vs
  end.

Definition isByte (n : Z) : Prop := (0 <= n <= 255)%Z.

(** A registry on which the four classes cannot be taken for one another:
    three distinct byte values in the single-byte slots, and in the exchange
    slot an array of two byte values or more (so that no payload of 21 bytes
    reaches it). *)
Definition wellFormedRegistry (prefixes : PivxPrefixes) : Prop :=
  exists (p s k : Z) (ex : list Z),
    pubKeyHash prefixes = VNum p /\ scriptHash prefixes = VNum s /\
    staking prefixes = VNum k /\ exchange prefixes = VArr ex /\
    isByte p /\ isByte s /\ isByte k /\ Forall isByte ex /\
    p <> s /\ p <> k /\ s <> k /\ 2 <= length ex.

(** The chunks [pivxAddressToOutputScript] compiles for a parsed address of
    one of the four types. *)
Definition chunksOf (ops : OpcodeTable) (parsed : ParsedPivxAddress) : list Chunk :=
  if (type parsed =? "p2pkh") || (type parsed =? "staking")
  then p2pkhChunks ops (hash parsed)
  else if type parsed =? "exchange"
  then exchangeChunks ops (hash parsed)
  else p2shChunks ops (hash parsed).

(** A registry whose exchange prefix has two bytes, the [scriptHash] and
    [pubKeyHash] prefixes one after the other. *)
Definition twoByteExchange : PivxNetwork := {|
  messagePrefix := messagePrefix pivx;
  bech32 := bech32 pivx;
  bip32 := bip32 pivx;
  net_pubKeyHash := net_pubKeyHash pivx;
  net_scriptHash := net_scriptHash pivx;
  wif := wif pivx;
  pivxPrefixes := {|
    pubKeyHash := VNum 0x1e;
    scriptHash := VNum 0x0d;
    staking := VNum 0x3f;
    exchange := VArr [0x0d; 0x1e]
  |}
|}%Z.

(** ** Proof steps *)

(** Names the single-byte stage of [extractVersion], the continuation of its
    multi-byte stage. *)
Ltac name_single_stage single :=
  match goal with
  | |- context [match _ with Some r => ret r | None => ?k end] => set (single := k)
  end.

Ltac split_ifs :=
  repeat match goal with
         | |- context [if ?c then _ else _] => destruct c
         end.

(** * Properties *)

(** ** The monad *)

Lemma result_bind {A B : Type} (m : M A) (f : A -> M B) :
  result (bind m f) =
  match result m with
  | inl e => inl e
  | inr a => result (f a)
  end.
Proof.
  destruct m as [t [e|a]]; simpl; [reflexivity|]. destruct (f a); reflexivity.
Qed.

Lemma trace_bind {A B : Type} (m : M A) (f : A -> M B) :
  trace (bind m f) =
  trace m ++ match result m with
             | inl _ => []
             | inr a => trace (f a)
             end.
Proof.
  destruct m as [t [e|a]]; simpl; [now rewrite app_nil_r|]. destruct (f a); reflexivity.
Qed.

(** ** Bytes *)

Lemma byte_to_Z_inj (a b : byte) : byte_to_Z a = byte_to_Z b -> a = b.
Proof.
  unfold byte_to_Z. intros E. apply N2Z.inj in E.
  pose proof (Byte.of_to_N a) as Ha. rewrite E, Byte.of_to_N in Ha. congruence.
Qed.

Lemma byte_to_Z_range (b : byte) : (0 <= byte_to_Z b < 256)%Z.
Proof.
  unfold byte_to_Z. pose proof (Byte.to_N_bounded b). lia.
Qed.

Lemma ToUint8_byte_to_Z (b : byte) : ToUint8 (byte_to_Z b) = b.
Proof.
  unfold ToUint8. rewrite Z.mod_small by apply byte_to_Z_range.
  unfold byte_to_Z. now rewrite N2Z.id, Byte.of_to_N.
Qed.

Lemma skipn_nth_error {A : Type} (l : list A) (k : nat) (x : A) :
  nth_error l k = Some x -> skipn k l = x :: skipn (S k) l.
Proof.
  revert l. induction k as [|k IH]; intros [|y l] E; simpl in *; try discriminate.
  - congruence.
  - rewrite (IH l E). destruct l; reflexivity.
Qed.

Lemma first3 (payload : Uint8Array) :
  3 <= length payload -> exists a b c rest, payload = a :: b :: c :: rest.
Proof.
  destruct payload as [|a [|b [|c rest]]]; simpl; try lia. eauto.
Qed.

(** ** versionEquals is structural equality *)

Lemma every_from_sound (xs : list Z) : forall k ys,
  every_from k xs ys = true -> firstn (length xs) (skipn k ys) = xs.
Proof.
  induction xs as [|x xs IH]; intros k ys E.
  - reflexivity.
  - simpl in E. apply andb_true_iff in E as [E1 E2].
    destruct (nth_error ys k) as [y|] eqn:Hn; [|discriminate].
    apply Z.eqb_eq in E1. subst y.
    rewrite (skipn_nth_error _ _ _ Hn). cbn [length]. rewrite firstn_cons.
    f_equal. apply IH, E2.
Qed.

Lemma every_from_complete (xs : list Z) : forall pre post,
  every_from (length pre) xs (pre ++ xs ++ post) = true.
Proof.
  induction xs as [|x xs IH]; intros pre post; simpl.
  - reflexivity.
  - rewrite nth_error_app2, Nat.sub_diag by lia. simpl. rewrite Z.eqb_refl. simpl.
    replace (S (length pre)) with (length (pre ++ [x]))
      by (rewrite length_app; simpl; lia).
    replace (pre ++ x :: xs ++ post) with ((pre ++ [x]) ++ xs ++ post)
      by (rewrite <- app_assoc; reflexivity).
    apply IH.
Qed.

Lemma versionEquals_spec (a b : VersionPrefix) : versionEquals a b = true <-> a = b.
Proof.
  destruct a as [x|xs], b as [y|ys]; simpl; try (split; [discriminate|congruence]).
  - rewrite Z.eqb_eq. split; congruence.
  - rewrite andb_true_iff, Nat.eqb_eq. split.
    + intros [L E]. apply every_from_sound in E. simpl in E.
      rewrite L, firstn_all in E. congruence.
    + intros E. injection E as ->. split; [reflexivity|].
      pose proof (every_from_complete ys [] []) as H. simpl in H.
      now rewrite app_nil_r in H.
Qed.

Lemma exchangeBytes_numbers (l : Uint8Array) :
  Array_from l = [1; 185; 162]%Z -> l = exchangeBytes.
Proof.
  destruct l as [|a [|b [|c [|d l]]]]; simpl; try discriminate.
  intros E. injection E as Ea Eb Ec.
  change 1%Z with (byte_to_Z x01) in Ea. change 185%Z with (byte_to_Z xb9) in Eb.
  change 162%Z with (byte_to_Z xa2) in Ec.
  apply byte_to_Z_inj in Ea, Eb, Ec. now subst.
Qed.

(** ** extractVersion, stage by stage *)

(** The multi-byte stage on a match, for any registered array prefix. *)
Lemma extractVersion_multibyte (payload : Uint8Array) (network : PivxNetwork) (ex : list Z) :
  exchange (pivxPrefixes network) = VArr ex ->
  length ex + 20 <= length payload ->
  Array_from (firstn (length ex) payload) = ex ->
  extractVersion payload network =
    ([EvSlice 0 (Some (length ex)); EvSlice (length ex) None],
     inr {| ex_version := VArr ex; ex_hash := skipn (length ex) payload;
            ex_type := "exchange" |}).
Proof.
  intros Hex Hlen Hpre. unfold extractVersion. rewrite Hex.
  destruct (Nat.leb_spec (length ex + 20) (length payload)) as [_|]; [|lia].
  unfold slice at 1. cbn [bind emit ret app skipn].
  rewrite Hpre, (proj2 (versionEquals_spec (VArr ex) (VArr ex)) eq_refl).
  reflexivity.
Qed.

(** The single-byte stage, reached when the registered exchange prefix does
    not match a payload of 21 bytes or more. *)
Lemma extractVersion_singlebyte (payload : Uint8Array) (network : PivxNetwork)
    (b0 : byte) (rest : Uint8Array) :
  exchange (pivxPrefixes network) = VArr [1; 185; 162]%Z ->
  payload = b0 :: rest ->
  20 <= length rest ->
  ~ (23 <= length payload /\ firstn 3 payload = exchangeBytes) ->
  let prefixes := pivxPrefixes network in
  let v := byte_to_Z b0 in
  extractVersion payload network =
    ((if (23 <=? length payload)%nat then [EvSlice 0 (Some 3)] else [])
       ++ [EvIndex 0; EvSlice 1 None],
     if typeofNumber (pubKeyHash prefixes) && strictEquals v (pubKeyHash prefixes)
     then inr {| ex_version := VNum v; ex_hash := rest; ex_type := "p2pkh" |}
     else if typeofNumber (scriptHash prefixes) && strictEquals v (scriptHash prefixes)
     then inr {| ex_version := VNum v; ex_hash := rest; ex_type := "p2sh" |}
     else if typeofNumber (staking prefixes) && strictEquals v (staking prefixes)
     then inr {| ex_version := VNum v; ex_hash := rest; ex_type := "staking" |}
     else inl (UnknownPivxAddressPrefix v)).
Proof.
  intros Hex Hp Hlen Hno prefixes v. unfold extractVersion. rewrite Hex.
  name_single_stage single.
  assert (Hsingle : single =
    ([EvIndex 0; EvSlice 1 None],
     if typeofNumber (pubKeyHash prefixes) && strictEquals v (pubKeyHash prefixes)
     then inr {| ex_version := VNum v; ex_hash := rest; ex_type := "p2pkh" |}
     else if typeofNumber (scriptHash prefixes) && strictEquals v (scriptHash prefixes)
     then inr {| ex_version := VNum v; ex_hash := rest; ex_type := "p2sh" |}
     else if typeofNumber (staking prefixes) && strictEquals v (staking prefixes)
     then inr {| ex_version := VNum v; ex_hash := rest; ex_type := "staking" |}
     else inl (UnknownPivxAddressPrefix v))).
  { subst single.
    destruct (Nat.ltb_spec (length payload) 21) as [Hlt|_];
      [subst payload; simpl in Hlt; lia|].
    subst payload. unfold index, slice.
    cbn [bind emit ret app skipn nth_error option_map]. fold prefixes v.
    split_ifs; reflexivity. }
  clearbody single.
  change (length [1; 185; 162]%Z + 20) with 23.
  change (length [1; 185; 162]%Z) with 3.
  destruct (Nat.leb_spec 23 (length payload)) as [H23|H23].
  - unfold slice at 1. cbn [bind emit ret app skipn].
    destruct (versionEquals _ _) eqn:E.
    + exfalso. apply Hno. split; [exact H23|].
      apply versionEquals_spec in E. injection E as E.
      now apply exchangeBytes_numbers.
    + rewrite Hsingle. reflexivity.
  - rewrite Hsingle. reflexivity.
Qed.

(** What [extractVersion] can yield, for any registry. *)
Lemma extractVersion_outcome (payload : Uint8Array) (network : PivxNetwork) :
  match result (extractVersion payload network) with
  | inr r => In (ex_type r) knownTypes
  | inl e => e = AddressPayloadTooShort \/ exists v, e = UnknownPivxAddressPrefix v
  end.
Proof.
  unfold extractVersion. rewrite result_bind.
  name_single_stage single.
  assert (Hsingle :
    match result single with
    | inr r => In (ex_type r) knownTypes
    | inl e => e = AddressPayloadTooShort \/ exists v, e = UnknownPivxAddressPrefix v
    end).
  { subst single.
    destruct (Nat.ltb_spec (length payload) 21) as [Hlt|Hge]; [left; reflexivity|].
    destruct payload as [|b0 rest]; [simpl in Hge; lia|].
    unfold index, slice. cbn [bind emit ret app skipn nth_error option_map].
    split_ifs; cbn; eauto 10. }
  clearbody single.
  destruct (exchange (pivxPrefixes network)) as [n|ex]; [exact Hsingle|].
  destruct (length ex + 20 <=? length payload)%nat; [|exact Hsingle].
  unfold slice at 1. cbn [bind emit ret app result snd].
  destruct (versionEquals _ _); [|exact Hsingle].
  cbn. auto.
Qed.

(** ** The matcher *)

(** C2. A payload of at least 23 bytes that starts with the registered
    exchange prefix [0x01, 0xb9, 0xa2] is classified as [exchange] with
    [hash = payload.slice(3)], whatever the single-byte slots of the registry
    hold: the call only takes the two slices of the multi-byte stage and never
    reads [payload[0]] for the single-byte comparison. *)
Theorem exchange_prefix_checked_first :
  forall (payload : Uint8Array) (network : PivxNetwork),
    exchange (pivxPrefixes network) = VArr [0x01; 0xb9; 0xa2]%Z ->
    firstn 3 payload = exchangeBytes ->
    23 <= length payload ->
    result (extractVersion payload network) =
      inr {| ex_version := VArr [0x01; 0xb9; 0xa2]%Z;
             ex_hash := skipn 3 payload;
             ex_type := "exchange" |} /\
    trace (extractVersion payload network) = [EvSlice 0 (Some 3); EvSlice 3 None] /\
    (forall i, ~ In (EvIndex i) (trace (extractVersion payload network))).
Proof.
  intros payload network Hex Hpre Hlen.
  rewrite (extractVersion_multibyte payload network [1; 185; 162]%Z Hex).
  - cbn [result trace fst snd length]. repeat split.
    intros i [H|[H|[]]]; discriminate.
  - simpl. lia.
  - cbn [length]. rewrite Hpre. reflexivity.
Qed.

(** C3. On the PIVX registry, a payload of at least 23 bytes whose first three
    bytes are not the exchange prefix does not fail at the multi-byte stage:
    after the slice of that stage the call reads [payload[0]] and matches it
    against the single-byte prefixes, so the outcome is fixed by byte 0; in
    particular byte 0 = 0x1e gives [p2pkh] with [hash = payload.slice(1)]. *)
Theorem multibyte_mismatch_falls_through :
  forall (payload : Uint8Array) (b0 : byte) (rest : Uint8Array),
    payload = b0 :: rest ->
    23 <= length payload ->
    firstn 3 payload <> exchangeBytes ->
    trace (extractVersion payload pivx) =
      [EvSlice 0 (Some 3); EvIndex 0; EvSlice 1 None] /\
    result (extractVersion payload pivx) =
      (let v := byte_to_Z b0 in
       if (v =? 0x1e)%Z
       then inr {| ex_version := VNum v; ex_hash := rest; ex_type := "p2pkh" |}
       else if (v =? 0x0d)%Z
       then inr {| ex_version := VNum v; ex_hash := rest; ex_type := "p2sh" |}
       else if (v =? 0x3f)%Z
       then inr {| ex_version := VNum v; ex_hash := rest; ex_type := "staking" |}
       else inl (UnknownPivxAddressPrefix v)) /\
    (b0 = x1e ->
     result (extractVersion payload pivx) =
       inr {| ex_version := VNum 0x1e; ex_hash := rest; ex_type := "p2pkh" |}).
Proof.
  intros payload b0 rest Hp Hlen Hne.
  assert (Hrest : 20 <= length rest) by (subst payload; simpl in Hlen; lia).
  assert (Hno : ~ (23 <= length payload /\ firstn 3 payload = exchangeBytes))
    by (intros [_ H]; exact (Hne H)).
  rewrite (extractVersion_singlebyte payload pivx b0 rest eq_refl Hp Hrest Hno).
  destruct (Nat.leb_spec 23 (length payload)) as [_|]; [|lia].
  cbn [trace result fst snd app pivx pivxPrefixes pubKeyHash scriptHash staking
       typeofNumber strictEquals andb].
  repeat split. intros ->. reflexivity.
Qed.

(** C4. With the exchange prefix registered, a payload of fewer than 21 bytes
    (on which the multi-byte stage cannot match) fails with
    "Address payload too short", and the call has touched no byte of the
    payload when it does: its log is empty. *)
Theorem short_payload_rejected :
  forall (payload : Uint8Array) (network : PivxNetwork),
    exchange (pivxPrefixes network) = VArr [0x01; 0xb9; 0xa2]%Z ->
    length payload < 21 ->
    result (extractVersion payload network) = inl AddressPayloadTooShort /\
    trace (extractVersion payload network) = [] /\
    message AddressPayloadTooShort = "Address payload too short".
Proof.
  intros payload network Hex Hlen. unfold extractVersion. rewrite Hex.
  change (length [1; 185; 162]%Z + 20) with 23.
  destruct (Nat.leb_spec 23 (length payload)) as [|_]; [lia|].
  cbn [bind ret app].
  destruct (Nat.ltb_spec (length payload) 21) as [_|]; [|lia].
  repeat split.
Qed.

(** ** Buffers *)

Lemma skipn_repeat_x00 (k n : nat) : skipn k (repeat x00 (k + n)) = repeat x00 n.
Proof.
  induction k as [|k IH]; simpl; [reflexivity|exact IH].
Qed.

Lemma overwrite_head (src : Uint8Array) (k n : nat) :
  k = length src -> overwrite (repeat x00 (k + n)) src 0 = src ++ repeat x00 n.
Proof.
  intros ->. unfold overwrite. cbn [firstn Nat.add app].
  now rewrite skipn_repeat_x00.
Qed.

Lemma overwrite_tail (pre src : Uint8Array) (k n : nat) :
  k = length pre -> n = length src ->
  overwrite (pre ++ repeat x00 n) src k = pre ++ src.
Proof.
  intros -> ->. unfold overwrite.
  rewrite firstn_app, Nat.sub_diag, firstn_O, app_nil_r, firstn_all.
  rewrite skipn_all2 by (rewrite length_app, repeat_length; lia).
  now rewrite app_nil_r.
Qed.

(** ** The codec *)

Section Codec.

Variable encode : Uint8Array -> string.
Variable decode : string -> string + Uint8Array.
Variable ops : OpcodeTable.
Variable bscript_compile : list Chunk -> Uint8Array.

(** [parsePivxBase58Address] as a composition of its three steps. *)
Lemma parse_result (address : string) (network : PivxNetwork) :
  result (parsePivxBase58Address decode address network) =
  match decode address with
  | inl msg => inl (Bs58checkError msg)
  | inr payload =>
      match result (extractVersion payload network) with
      | inl e => inl e
      | inr r =>
          if (length (ex_hash r) =? 20)%nat
          then inr {| type := ex_type r; version := ex_version r; hash := ex_hash r |}
          else inl (InvalidHashLength (length (ex_hash r)))
      end
  end.
Proof.
  unfold parsePivxBase58Address, bs58check_decode.
  rewrite !result_bind. cbn [emit result snd].
  destruct (decode address) as [msg|payload]; cbn [throw ret result snd]; [reflexivity|].
  rewrite result_bind.
  destruct (result (extractVersion payload network)) as [e|r]; [reflexivity|].
  destruct (length (ex_hash r) =? 20)%nat; reflexivity.
Qed.

Lemma parse_success (address : string) (network : PivxNetwork) (parsed : ParsedPivxAddress) :
  result (parsePivxBase58Address decode address network) = inr parsed ->
  length (hash parsed) = 20 /\ In (type parsed) knownTypes.
Proof.
  rewrite parse_result. destruct (decode address) as [msg|payload]; [discriminate|].
  pose proof (extractVersion_outcome payload network) as Hout.
  destruct (result (extractVersion payload network)) as [e|r]; [discriminate|].
  destruct (Nat.eqb_spec (length (ex_hash r)) 20) as [L|L]; [|discriminate].
  intros E. injection E as <-. split; assumption.
Qed.

Lemma parse_failure (address : string) (network : PivxNetwork) (e : Error) :
  result (parsePivxBase58Address decode address network) = inl e ->
  decodeStageError e.
Proof.
  rewrite parse_result. destruct (decode address) as [msg|payload].
  - intros E. injection E as <-. exact I.
  - pose proof (extractVersion_outcome payload network) as Hout.
    destruct (result (extractVersion payload network)) as [e'|r].
    + intros E. injection E as <-. destruct Hout as [->|[v ->]]; exact I.
    + destruct (length (ex_hash r) =? 20)%nat; [discriminate|].
      intros E. injection E as <-. exact I.
Qed.

(** The payload [encodePivxAddress] assembles: the prefix bytes, then the hash. *)
Lemma encode_single (h : Uint8Array) (v : Z) :
  length h = 20 -> (v <= 0xff)%Z ->
  encodePivxAddress encode h (VNum v) =
    ([EvAlloc 21; EvEncode (ToUint8 v :: h)], inr (encode (ToUint8 v :: h))).
Proof.
  intros L Hv. unfold encodePivxAddress. rewrite L. cbn [Nat.eqb negb].
  unfold newUint8Array, writeUInt8, set_bytes, bs58check_encode.
  cbn [bind emit ret app repeat length Nat.add Nat.ltb Nat.leb].
  destruct (Z.ltb_spec 0xff v) as [|_]; [lia|].
  cbn [bind emit ret app overwrite firstn skipn length Nat.add repeat].
  rewrite L. cbn [bind emit ret app overwrite firstn skipn length Nat.add Nat.ltb Nat.leb].
  rewrite app_nil_r. reflexivity.
Qed.

Lemma encode_multi (h : Uint8Array) (vs : list Z) :
  length h = 20 ->
  encodePivxAddress encode h (VArr vs) =
    ([EvAlloc (length vs + 20); EvEncode (map ToUint8 vs ++ h)],
     inr (encode (map ToUint8 vs ++ h))).
Proof.
  intros L. unfold encodePivxAddress. rewrite L. cbn [Nat.eqb negb].
  unfold newUint8Array, set_numbers, set_bytes, bs58check_encode.
  cbn [bind emit ret app].
  rewrite repeat_length, length_map.
  destruct (Nat.ltb_spec (length vs + 20) (0 + length vs)) as [|_]; [lia|].
  cbn [bind ret app].
  rewrite (overwrite_head (map ToUint8 vs) (length vs) 20) by (now rewrite length_map).
  rewrite (overwrite_tail (map ToUint8 vs) h (length vs) 20)
    by (now rewrite ?length_map).
  rewrite length_app, length_map, repeat_length, L.
  destruct (Nat.ltb_spec (length vs + 20) (length vs + 20)) as [|_]; [lia|].
  reflexivity.
Qed.

(** C1. With a Base58Check primitive whose [decode] inverts its [encode],
    for every 20-byte hash [H] and each of the four classes of the PIVX
    registry, [encodePivxAddress H prefix] returns an address that
    [parsePivxBase58Address] decodes to the class, a version structurally
    equal (and equal) to the prefix, and the hash [H]. *)
Theorem encode_decode_roundtrip :
  (forall b : Uint8Array, decode (encode b) = inr b) ->
  forall (H : Uint8Array) (c : AddressClass),
    length H = 20 ->
    let prefix := registered (pivxPrefixes pivx) c in
    exists (address : string) (parsed : ParsedPivxAddress),
      result (encodePivxAddress encode H prefix) = inr address /\
      result (parsePivxBase58Address decode address pivx) = inr parsed /\
      type parsed = typeOfClass c /\
      versionEquals (version parsed) prefix = true /\
      version parsed = prefix /\
      hash parsed = H.
Proof.
  intros Hrt H c L prefix.
  assert (Hsingle : forall b t,
    In (b, t) [(x1e, "p2pkh"); (x0d, "p2sh"); (x3f, "staking")] ->
    result (parsePivxBase58Address decode (encode (b :: H)) pivx) =
      inr {| type := t; version := VNum (byte_to_Z b); hash := H |}).
  { intros b t Hin. rewrite parse_result, Hrt.
    rewrite (extractVersion_singlebyte (b :: H) pivx b H eq_refl eq_refl)
      by (simpl; lia).
    destruct Hin as [E|[E|[E|[]]]]; injection E as <- <-;
      simpl; rewrite L; reflexivity. }
  destruct c; subst prefix; cbn [registered pivx pivxPrefixes pubKeyHash scriptHash
                                 staking exchange typeOfClass].
  - exists (encode (x1e :: H)). eexists. rewrite encode_single by (assumption || lia).
    split; [reflexivity|]. split; [apply (Hsingle x1e); simpl; auto|].
    repeat split.
  - exists (encode (x0d :: H)). eexists. rewrite encode_single by (assumption || lia).
    split; [reflexivity|]. split; [apply (Hsingle x0d); simpl; auto|].
    repeat split.
  - exists (encode (x3f :: H)). eexists. rewrite encode_single by (assumption || lia).
    split; [reflexivity|]. split; [apply (Hsingle x3f); simpl; auto|].
    repeat split.
  - exists (encode (exchangeBytes ++ H)). eexists. rewrite encode_multi by assumption.
    split; [reflexivity|]. rewrite parse_result, Hrt.
    rewrite (extractVersion_multibyte (exchangeBytes ++ H) pivx [1; 185; 162]%Z eq_refl)
      by (simpl; lia || reflexivity).
    cbn [result snd ex_hash ex_type ex_version length exchangeBytes skipn app].
    rewrite L. cbn [Nat.eqb]. repeat split.
Qed.

(** C5. On the PIVX registry, a payload of at least 21 bytes whose first
    three bytes are not the exchange prefix and whose byte 0 is none of
    0x1e, 0x0d, 0x3f makes the matcher, and so the decode of any address
    with that payload, fail with "Unknown PIVX address prefix", and the
    error carries the value of byte 0. *)
Theorem unknown_prefix_rejected :
  forall (address : string) (payload : Uint8Array) (b0 : byte) (rest : Uint8Array),
    decode address = inr payload ->
    payload = b0 :: rest ->
    21 <= length payload ->
    firstn 3 payload <> exchangeBytes ->
    byte_to_Z b0 <> 0x1e%Z -> byte_to_Z b0 <> 0x0d%Z -> byte_to_Z b0 <> 0x3f%Z ->
    result (extractVersion payload pivx) =
      inl (UnknownPivxAddressPrefix (byte_to_Z b0)) /\
    result (parsePivxBase58Address decode address pivx) =
      inl (UnknownPivxAddressPrefix (byte_to_Z b0)) /\
    message (UnknownPivxAddressPrefix (byte_to_Z b0)) =
      ("Unknown PIVX address prefix: 0x" ++ padStart (toString16 (byte_to_Z b0)) 2 "0")%string.
Proof.
  intros address payload b0 rest Hdec Hp Hlen Hne H1 H2 H3.
  assert (Hrest : 20 <= length rest) by (subst payload; simpl in Hlen; lia).
  assert (Hno : ~ (23 <= length payload /\ firstn 3 payload = exchangeBytes))
    by (intros [_ H]; exact (Hne H)).
  assert (Hm : result (extractVersion payload pivx) =
               inl (UnknownPivxAddressPrefix (byte_to_Z b0))).
  { rewrite (extractVersion_singlebyte payload pivx b0 rest eq_refl Hp Hrest Hno).
    cbn [result snd pivx pivxPrefixes pubKeyHash scriptHash staking
         typeofNumber strictEquals andb].
    destruct (Z.eqb_spec (byte_to_Z b0) 30); [contradiction|].
    destruct (Z.eqb_spec (byte_to_Z b0) 13); [contradiction|].
    destruct (Z.eqb_spec (byte_to_Z b0) 63); [contradiction|].
    reflexivity. }
  split; [exact Hm|]. split; [|reflexivity].
  rewrite parse_result, Hdec, Hm. reflexivity.
Qed.

(** C6. For every hash whose length is not 20 and every version prefix,
    [encodePivxAddress] fails with "Hash must be 20 bytes, got <length>",
    and its log is empty: no buffer was allocated and [bs58check.encode]
    was not called. *)
Theorem encode_rejects_bad_hash_length :
  forall (hash : Uint8Array) (version : VersionPrefix),
    length hash <> 20 ->
    result (encodePivxAddress encode hash version) =
      inl (HashMustBe20Bytes (length hash)) /\
    trace (encodePivxAddress encode hash version) = [] /\
    message (HashMustBe20Bytes (length hash)) =
      ("Hash must be 20 bytes, got " ++ toString10 (length hash))%string.
Proof.
  intros hash version L. unfold encodePivxAddress.
  destruct (Nat.eqb_spec (length hash) 20) as [E|_]; [contradiction|].
  repeat split.
Qed.

(** C7. Whenever [parsePivxBase58Address] returns, the hash it returns is
    20 bytes long and the type is one of 'p2pkh', 'p2sh', 'staking',
    'exchange'; and whenever the matcher extracts a hash of another length,
    the decode fails with "Invalid hash length" carrying that length, an
    error distinct from the unknown-prefix one. *)
Theorem parse_hash_length_invariant :
  forall (address : string) (network : PivxNetwork),
    (forall parsed : ParsedPivxAddress,
       result (parsePivxBase58Address decode address network) = inr parsed ->
       length (hash parsed) = 20 /\ In (type parsed) knownTypes) /\
    (forall (payload : Uint8Array) (r : Extracted),
       decode address = inr payload ->
       result (extractVersion payload network) = inr r ->
       length (ex_hash r) <> 20 ->
       result (parsePivxBase58Address decode address network) =
         inl (InvalidHashLength (length (ex_hash r))) /\
       (forall v, InvalidHashLength (length (ex_hash r)) <> UnknownPivxAddressPrefix v) /\
       message (InvalidHashLength (length (ex_hash r))) =
         ("Invalid hash length: expected 20 bytes, got "
            ++ toString10 (length (ex_hash r)))%string).
Proof.
  intros address network. split.
  - intros parsed. apply parse_success.
  - intros payload r Hdec Hr L. rewrite parse_result, Hdec, Hr.
    destruct (Nat.eqb_spec (length (ex_hash r)) 20) as [|_]; [contradiction|].
    repeat split. intros v. discriminate.
Qed.

(** ** Script projection *)

(** The [switch] of [pivxAddressToOutputScript] on a parsed address. *)
Lemma script_result (address : string) (network : PivxNetwork) :
  result (pivxAddressToOutputScript decode ops bscript_compile address network) =
  match result (parsePivxBase58Address decode address network) with
  | inl e => inl e
  | inr parsed =>
      if (type parsed =? "p2pkh") || (type parsed =? "staking")
      then inr (bscript_compile (p2pkhChunks ops (hash parsed)))
      else if type parsed =? "exchange"
      then inr (bscript_compile (exchangeChunks ops (hash parsed)))
      else if type parsed =? "p2sh"
      then inr (bscript_compile (p2shChunks ops (hash parsed)))
      else inl (UnknownPivxAddressType (type parsed))
  end.
Proof.
  unfold pivxAddressToOutputScript. rewrite result_bind.
  destruct (result (parsePivxBase58Address decode address network)) as [e|parsed];
    [reflexivity|].
  split_ifs; reflexivity.
Qed.

(** C9. [pivxAddressToOutputScript] never throws "Unknown PIVX address
    type": for every address, registry, opcode table and script compiler it
    either fails with the error of the decode stage (Base58Check, payload too
    short, unknown prefix, invalid hash length) or returns the compiled script
    of one of the four types. *)
Theorem unknown_type_branch_unreachable :
  forall (address : string) (network : PivxNetwork),
    let script := result (pivxAddressToOutputScript decode ops bscript_compile
                            address network) in
    (forall t : string, script <> inl (UnknownPivxAddressType t)) /\
    match script with
    | inl e =>
        decodeStageError e /\
        result (parsePivxBase58Address decode address network) = inl e
    | inr bytes =>
        exists parsed : ParsedPivxAddress,
          result (parsePivxBase58Address decode address network) = inr parsed /\
          In (type parsed) knownTypes /\
          bytes =
            bscript_compile
              (if (type parsed =? "p2pkh") || (type parsed =? "staking")
               then p2pkhChunks ops (hash parsed)
               else if type parsed =? "exchange"
               then exchangeChunks ops (hash parsed)
               else p2shChunks ops (hash parsed))
    end.
Proof.
  intros address network script.
  assert (Hmain :
    match script with
    | inl e =>
        decodeStageError e /\
        result (parsePivxBase58Address decode address network) = inl e
    | inr bytes =>
        exists parsed : ParsedPivxAddress,
          result (parsePivxBase58Address decode address network) = inr parsed /\
          In (type parsed) knownTypes /\
          bytes =
            bscript_compile
              (if (type parsed =? "p2pkh") || (type parsed =? "staking")
               then p2pkhChunks ops (hash parsed)
               else if type parsed =? "exchange"
               then exchangeChunks ops (hash parsed)
               else p2shChunks ops (hash parsed))
    end).
  { subst script. rewrite script_result.
    destruct (result (parsePivxBase58Address decode address network))
      as [e|parsed] eqn:Hp.
    - split; [exact (parse_failure _ _ _ Hp)|reflexivity].
    - destruct (parse_success _ _ _ Hp) as [_ Hin].
      destruct Hin as [E|[E|[E|[E|[]]]]]; rewrite <- E;
        cbn [String.eqb Ascii.eqb Bool.eqb orb];
        (exists parsed; split; [reflexivity|]; split;
           [rewrite <- E; simpl; auto|]; rewrite <- E; reflexivity). }
  split; [|exact Hmain].
  intros t Ht. rewrite Ht in Hmain. destruct Hmain as [[] _].
Qed.

(** C10. On the PIVX registry, a payload of 21 or 22 bytes that starts
    with the exchange prefix [0x01, 0xb9, 0xa2] makes the matcher, and the
    decode of any address with that payload, fail with "Unknown PIVX
    address prefix" carrying the leading byte 0x01. *)
Theorem short_exchange_payload_unknown_prefix :
  forall (address : string) (payload : Uint8Array),
    decode address = inr payload ->
    firstn 3 payload = exchangeBytes ->
    length payload = 21 \/ length payload = 22 ->
    result (extractVersion payload pivx) = inl (UnknownPivxAddressPrefix 0x01) /\
    result (parsePivxBase58Address decode address pivx) =
      inl (UnknownPivxAddressPrefix 0x01) /\
    message (UnknownPivxAddressPrefix 0x01) = "Unknown PIVX address prefix: 0x01".
Proof.
  intros address payload Hdec Hpre Hlen.
  destruct (first3 payload) as (a & b & c & rest & Hp); [lia|].
  assert (Ha : a = x01)
    by (subst payload; unfold exchangeBytes in Hpre; simpl in Hpre; congruence).
  assert (Hm : result (extractVersion payload pivx) =
               inl (UnknownPivxAddressPrefix 1)).
  { rewrite (extractVersion_singlebyte payload pivx a (b :: c :: rest) eq_refl Hp).
    - subst a. reflexivity.
    - subst payload. simpl in Hlen |- *. lia.
    - intros [H23 _]. lia. }
  split; [exact Hm|]. split; [|reflexivity].
  rewrite parse_result, Hdec, Hm. reflexivity.
Qed.

End Codec.

(** ** Script projection with the modelled compiler *)

Lemma compile_model_p2pkh (ops : OpcodeTable) (h : Uint8Array) :
  length h = 20 -> compile_model (p2pkhChunks ops h) = p2pkhScript ops h.
Proof.
  intros L. unfold compile_model, p2pkhChunks, p2pkhScript.
  cbn [map concat compileChunk app]. rewrite L. reflexivity.
Qed.

Lemma compile_model_exchange (ops : OpcodeTable) (h : Uint8Array) :
  length h = 20 -> compile_model (exchangeChunks ops h) = xe0 :: p2pkhScript ops h.
Proof.
  intros L. unfold compile_model, exchangeChunks, p2pkhChunks, p2pkhScript.
  cbn [map concat compileChunk app]. rewrite L. reflexivity.
Qed.

Lemma compile_model_p2sh (ops : OpcodeTable) (h : Uint8Array) :
  length h = 20 -> compile_model (p2shChunks ops h) = p2shScript ops h.
Proof.
  intros L. unfold compile_model, p2shChunks, p2shScript.
  cbn [map concat compileChunk app]. rewrite L. reflexivity.
Qed.

(** C8. For an address that decodes to hash [H]: if its type is 'p2pkh' or
    'staking' the output script is DUP HASH160 <H> EQUALVERIFY CHECKSIG, the
    same 25 bytes for both; if it is 'exchange' the script is the byte 0xe0
    followed by that same script (26 bytes); if it is 'p2sh' the script is
    HASH160 <H> EQUAL (23 bytes). *)
Theorem output_script_by_class :
  forall (decode : string -> string + Uint8Array) (ops : OpcodeTable)
         (address : string) (network : PivxNetwork) (parsed : ParsedPivxAddress),
    result (parsePivxBase58Address decode address network) = inr parsed ->
    let H := hash parsed in
    let script :=
      result (pivxAddressToOutputScript decode ops compile_model address network) in
    (type parsed = "p2pkh" \/ type parsed = "staking" ->
     script = inr (p2pkhScript ops H)) /\
    (type parsed = "exchange" -> script = inr (xe0 :: p2pkhScript ops H)) /\
    (type parsed = "p2sh" -> script = inr (p2shScript ops H)) /\
    compile_model (p2pkhChunks ops H) = p2pkhScript ops H /\
    compile_model (p2shChunks ops H) = p2shScript ops H /\
    length (p2pkhScript ops H) = 25 /\
    length (xe0 :: p2pkhScript ops H) = 26 /\
    length (p2shScript ops H) = 23.
Proof.
  intros decode ops address network parsed Hp H script.
  destruct (parse_success _ _ _ _ Hp) as [L _]. fold H in L.
  subst script. rewrite script_result, Hp. fold H.
  repeat split.
  - intros [E|E]; rewrite E; cbn [String.eqb Ascii.eqb Bool.eqb orb];
      now rewrite compile_model_p2pkh.
  - intros E. rewrite E. cbn [String.eqb Ascii.eqb Bool.eqb orb].
    now rewrite compile_model_exchange.
  - intros E. rewrite E. cbn [String.eqb Ascii.eqb Bool.eqb orb].
    now rewrite compile_model_p2sh.
  - now apply compile_model_p2pkh.
  - now apply compile_model_p2sh.
  - unfold p2pkhScript. rewrite !length_app, L. reflexivity.
  - unfold p2pkhScript. cbn [length]. rewrite !length_app, L. reflexivity.
  - unfold p2shScript. rewrite !length_app, L. reflexivity.
Qed.

(** ** The properties on concrete inputs *)

Lemma raw_codec_roundtrip (b : Uint8Array) : raw_decode (raw_encode b) = inr b.
Proof.
  unfold raw_decode, raw_encode. now rewrite list_byte_of_string_of_list_byte.
Qed.

(** The exchange address of the hash 0x78 x 20 decodes to itself. *)
Lemma encode_decode_roundtrip_witness :
  (forall b : Uint8Array, raw_decode (raw_encode b) = inr b) /\
  length (repeat x78 20) = 20 /\
  exists (address : string) (parsed : ParsedPivxAddress),
    result (encodePivxAddress raw_encode (repeat x78 20) (VArr [0x01; 0xb9; 0xa2]%Z))
      = inr address /\
    result (parsePivxBase58Address raw_decode address pivx) = inr parsed /\
    type parsed = "exchange" /\
    versionEquals (version parsed) (VArr [0x01; 0xb9; 0xa2]%Z) = true /\
    version parsed = VArr [0x01; 0xb9; 0xa2]%Z /\
    hash parsed = repeat x78 20.
Proof.
  split; [exact raw_codec_roundtrip|]. split; [reflexivity|].
  exact (encode_decode_roundtrip raw_encode raw_decode raw_codec_roundtrip
           (repeat x78 20) Exchange eq_refl).
Defined.

(** A payload that starts with the exchange prefix is an exchange address
    even on a registry whose [pubKeyHash] prefix is its first byte. *)
Lemma exchange_prefix_checked_first_witness :
  exchange (pivxPrefixes shadowed) = VArr [0x01; 0xb9; 0xa2]%Z /\
  firstn 3 (exchangeBytes ++ repeat x78 20) = exchangeBytes /\
  23 <= length (exchangeBytes ++ repeat x78 20) /\
  result (extractVersion (exchangeBytes ++ repeat x78 20) shadowed) =
    inr {| ex_version := VArr [0x01; 0xb9; 0xa2]%Z;
           ex_hash := repeat x78 20;
           ex_type := "exchange" |} /\
  trace (extractVersion (exchangeBytes ++ repeat x78 20) shadowed) =
    [EvSlice 0 (Some 3); EvSlice 3 None].
Proof.
  assert (Hlen : 23 <= length (exchangeBytes ++ repeat x78 20)) by (simpl; lia).
  split; [reflexivity|]. split; [reflexivity|]. split; [exact Hlen|].
  destruct (exchange_prefix_checked_first (exchangeBytes ++ repeat x78 20) shadowed
              eq_refl eq_refl Hlen) as (Hr & Ht & _).
  split; [exact Hr|exact Ht].
Defined.

(** 23 bytes, the first of them 0x1e: a [p2pkh] address of 22 hash bytes for
    the matcher. *)
Lemma multibyte_mismatch_falls_through_witness :
  23 <= length (x1e :: repeat x00 22) /\
  firstn 3 (x1e :: repeat x00 22) <> exchangeBytes /\
  trace (extractVersion (x1e :: repeat x00 22) pivx) =
    [EvSlice 0 (Some 3); EvIndex 0; EvSlice 1 None] /\
  result (extractVersion (x1e :: repeat x00 22) pivx) =
    inr {| ex_version := VNum 0x1e; ex_hash := repeat x00 22; ex_type := "p2pkh" |}.
Proof.
  assert (Hlen : 23 <= length (x1e :: repeat x00 22)) by (simpl; lia).
  assert (Hne : firstn 3 (x1e :: repeat x00 22) <> exchangeBytes)
    by (simpl; discriminate).
  split; [exact Hlen|]. split; [exact Hne|].
  destruct (multibyte_mismatch_falls_through (x1e :: repeat x00 22) x1e
              (repeat x00 22) eq_refl Hlen Hne) as (Ht & _ & Hr).
  split; [exact Ht|exact (Hr eq_refl)].
Defined.

(** A payload of 15 bytes. *)
Lemma short_payload_rejected_witness :
  length (repeat x00 15) < 21 /\
  result (extractVersion (repeat x00 15) pivx) = inl AddressPayloadTooShort /\
  trace (extractVersion (repeat x00 15) pivx) = [].
Proof.
  assert (Hlen : length (repeat x00 15) < 21) by (simpl; lia).
  split; [exact Hlen|].
  destruct (short_payload_rejected (repeat x00 15) pivx eq_refl Hlen) as (Hr & Ht & _).
  split; [exact Hr|exact Ht].
Defined.

(** The address of the test 'should throw on unknown prefix': prefix 0xff
    and the hash 0xaa x 20. *)
Lemma unknown_prefix_rejected_witness :
  raw_decode (raw_encode (xff :: repeat xaa 20)) = inr (xff :: repeat xaa 20) /\
  result (parsePivxBase58Address raw_decode (raw_encode (xff :: repeat xaa 20)) pivx) =
    inl (UnknownPivxAddressPrefix 0xff) /\
  message (UnknownPivxAddressPrefix 0xff) = "Unknown PIVX address prefix: 0xff".
Proof.
  split; [reflexivity|].
  assert (Hlen : 21 <= length (xff :: repeat xaa 20)) by (simpl; lia).
  assert (Hne : firstn 3 (xff :: repeat xaa 20) <> exchangeBytes)
    by (simpl; discriminate).
  destruct (unknown_prefix_rejected raw_decode (raw_encode (xff :: repeat xaa 20))
              (xff :: repeat xaa 20) xff (repeat xaa 20) eq_refl eq_refl Hlen Hne)
    as (_ & Hr & Hm); try (vm_compute; discriminate).
  split; [exact Hr|exact Hm].
Defined.

(** The hashes of the test 'should throw on invalid hash length': 10 and 30
    bytes. *)
Lemma encode_rejects_bad_hash_length_witness :
  (length (repeat x00 10) <> 20 /\
   encodePivxAddress raw_encode (repeat x00 10) (VNum 0x1e) =
     ([], inl (HashMustBe20Bytes 10)) /\
   message (HashMustBe20Bytes 10) = "Hash must be 20 bytes, got 10") /\
  (length (repeat x00 30) <> 20 /\
   encodePivxAddress raw_encode (repeat x00 30) (VArr [0x01; 0xb9; 0xa2]%Z) =
     ([], inl (HashMustBe20Bytes 30)) /\
   message (HashMustBe20Bytes 30) = "Hash must be 20 bytes, got 30").
Proof.
  assert (H10 : length (repeat x00 10) <> 20) by (simpl; lia).
  assert (H30 : length (repeat x00 30) <> 20) by (simpl; lia).
  split.
  - split; [exact H10|].
    destruct (encode_rejects_bad_hash_length raw_encode (repeat x00 10) (VNum 0x1e) H10)
      as (Hr & Ht & Hm).
    split; [|exact Hm].
    destruct (encodePivxAddress raw_encode (repeat x00 10) (VNum 30)) as [t r].
    simpl in Hr, Ht. now subst.
  - split; [exact H30|].
    destruct (encode_rejects_bad_hash_length raw_encode (repeat x00 30)
                (VArr [0x01; 0xb9; 0xa2]%Z) H30) as (Hr & Ht & Hm).
    split; [|exact Hm].
    destruct (encodePivxAddress raw_encode (repeat x00 30) (VArr [1; 185; 162]%Z)) as [t r].
    simpl in Hr, Ht. now subst.
Defined.

(** A 21-byte payload decodes to a 20-byte hash; a 26-byte payload with the
    prefix 0x1e is refused for its 25-byte hash. *)
Lemma parse_hash_length_invariant_witness :
  (length (repeat x12 20) = 20 /\ In "p2pkh" knownTypes) /\
  result (parsePivxBase58Address raw_decode (raw_encode (x1e :: repeat x12 25)) pivx) =
    inl (InvalidHashLength 25) /\
  message (InvalidHashLength 25) = "Invalid hash length: expected 20 bytes, got 25".
Proof.
  split.
  - exact (proj1 (parse_hash_length_invariant raw_decode
                    (raw_encode (x1e :: repeat x12 20)) pivx)
             {| type := "p2pkh"; version := VNum 0x1e; hash := repeat x12 20 |}
             eq_refl).
  - destruct (proj2 (parse_hash_length_invariant raw_decode
                       (raw_encode (x1e :: repeat x12 25)) pivx)
                (x1e :: repeat x12 25)
                {| ex_version := VNum 0x1e; ex_hash := repeat x12 25; ex_type := "p2pkh" |}
                eq_refl eq_refl) as (Hr & _ & Hm).
    + simpl. lia.
    + split; [exact Hr|exact Hm].
Defined.

(** The staking address of the hash 0x56 x 20 and its script, with the
    opcode values of the script format. *)
Lemma output_script_by_class_witness :
  result (parsePivxBase58Address raw_decode (raw_encode (x3f :: repeat x56 20)) pivx) =
    inr {| type := "staking"; version := VNum 0x3f; hash := repeat x56 20 |} /\
  result (pivxAddressToOutputScript raw_decode script_ops compile_model
            (raw_encode (x3f :: repeat x56 20)) pivx) =
    inr ([x76; xa9; x14] ++ repeat x56 20 ++ [x88; xac]) /\
  length ([x76; xa9; x14] ++ repeat x56 20 ++ [x88; xac]) = 25.
Proof.
  split; [reflexivity|].
  destruct (output_script_by_class raw_decode script_ops
              (raw_encode (x3f :: repeat x56 20)) pivx
              {| type := "staking"; version := VNum 0x3f; hash := repeat x56 20 |}
              eq_refl) as (Hs & _ & _ & _ & _ & Hl & _).
  split; [exact (Hs (or_intror eq_refl))|exact Hl].
Defined.

(** 21 bytes that start with the exchange prefix. *)
Lemma short_exchange_payload_unknown_prefix_witness :
  raw_decode (raw_encode (exchangeBytes ++ repeat x00 18)) =
    inr (exchangeBytes ++ repeat x00 18) /\
  firstn 3 (exchangeBytes ++ repeat x00 18) = exchangeBytes /\
  length (exchangeBytes ++ repeat x00 18) = 21 /\
  result (parsePivxBase58Address raw_decode
            (raw_encode (exchangeBytes ++ repeat x00 18)) pivx) =
    inl (UnknownPivxAddressPrefix 0x01).
Proof.
  split; [reflexivity|]. split; [reflexivity|]. split; [reflexivity|].
  exact (proj1 (proj2 (short_exchange_payload_unknown_prefix raw_decode
                         (raw_encode (exchangeBytes ++ repeat x00 18))
                         (exchangeBytes ++ repeat x00 18)
                         eq_refl eq_refl (or_introl eq_refl)))).
Defined.

(** ** Vectors of test/pivx.spec.ts *)

(** 'should parse a standard PIVX P2PKH address (D-prefix)' *)
Example parse_p2pkh_vector :
  (address <- encodePivxAddress raw_encode (repeat x12 20) (VNum 0x1e) ;;
   parsePivxBase58Address raw_decode address pivx) =
  ([EvAlloc 21; EvEncode (x1e :: repeat x12 20);
    EvDecode (raw_encode (x1e :: repeat x12 20)); EvIndex 0; EvSlice 1 None],
   inr {| type := "p2pkh"; version := VNum 0x1e; hash := repeat x12 20 |}).
Proof. reflexivity. Qed.

(** 'should throw on invalid checksum': the error of the primitive comes out
    as it is. *)
Example parse_invalid_checksum_vector :
  parsePivxBase58Address checked_decode EmptyString pivx =
  ([EvDecode EmptyString], inl (Bs58checkError "Invalid checksum")).
Proof. reflexivity. Qed.

(** 'should throw on invalid hash length': prefix 0x1e and a 10-byte hash. *)
Example parse_short_hash_vector :
  result (parsePivxBase58Address raw_decode (raw_encode (x1e :: repeat x00 10)) pivx) =
  inl AddressPayloadTooShort.
Proof. reflexivity. Qed.

(** The exchange script of the hash 0x78 x 20. *)
Example exchange_script_vector :
  result (a <- encodePivxExchangeAddress raw_encode (repeat x78 20) pivx ;;
          toOutputScript raw_decode script_ops compile_model a pivx) =
  inr ([xe0; x76; xa9; x14] ++ repeat x78 20 ++ [x88; xac]).
Proof. reflexivity. Qed.

(** * Further properties *)

(** ** Bytes and prefixes *)

Lemma byte_to_Z_ToUint8 (v : Z) : isByte v -> byte_to_Z (ToUint8 v) = v.
Proof.
  unfold isByte, ToUint8, byte_to_Z. intros Hv. rewrite Z.mod_small by lia.
  destruct (Byte.of_N (Z.to_N v)) as [b|] eqn:E.
  - apply Byte.to_of_N in E. rewrite E. lia.
  - apply Byte.of_N_None_iff in E. lia.
Qed.

Lemma Array_from_ToUint8 (vs : list Z) :
  Forall isByte vs -> Array_from (map ToUint8 vs) = vs.
Proof.
  induction 1 as [|v vs Hv _ IH]; simpl; [reflexivity|].
  now rewrite byte_to_Z_ToUint8, IH.
Qed.

Lemma ToUint8_Array_from (l : Uint8Array) : map ToUint8 (Array_from l) = l.
Proof.
  induction l as [|b l IH]; simpl; [reflexivity|].
  now rewrite ToUint8_byte_to_Z, IH.
Qed.

Lemma single_match (v : Z) (p : VersionPrefix) :
  typeofNumber p && strictEquals v p = true <-> p = VNum v.
Proof.
  destruct p as [n|l]; simpl.
  - rewrite Z.eqb_eq. split; congruence.
  - split; discriminate.
Qed.

(** ** extractVersion on any registry *)

(** The single-byte stage, reached when the exchange slot does not match. *)
Lemma extractVersion_single_result (payload : Uint8Array) (network : PivxNetwork)
    (b0 : byte) (rest : Uint8Array) :
  payload = b0 :: rest ->
  20 <= length rest ->
  (forall ex, exchange (pivxPrefixes network) = VArr ex ->
              length ex + 20 <= length payload ->
              Array_from (firstn (length ex) payload) <> ex) ->
  let prefixes := pivxPrefixes network in
  let v := byte_to_Z b0 in
  result (extractVersion payload network) =
    if typeofNumber (pubKeyHash prefixes) && strictEquals v (pubKeyHash prefixes)
    then inr {| ex_version := VNum v; ex_hash := rest; ex_type := "p2pkh" |}
    else if typeofNumber (scriptHash prefixes) && strictEquals v (scriptHash prefixes)
    then inr {| ex_version := VNum v; ex_hash := rest; ex_type := "p2sh" |}
    else if typeofNumber (staking prefixes) && strictEquals v (staking prefixes)
    then inr {| ex_version := VNum v; ex_hash := rest; ex_type := "staking" |}
    else inl (UnknownPivxAddressPrefix v).
Proof.
  intros Hp Hlen Hno prefixes v. unfold extractVersion. rewrite result_bind.
  name_single_stage single.
  assert (Hsingle : result single =
    if typeofNumber (pubKeyHash prefixes) && strictEquals v (pubKeyHash prefixes)
    then inr {| ex_version := VNum v; ex_hash := rest; ex_type := "p2pkh" |}
    else if typeofNumber (scriptHash prefixes) && strictEquals v (scriptHash prefixes)
    then inr {| ex_version := VNum v; ex_hash := rest; ex_type := "p2sh" |}
    else if typeofNumber (staking prefixes) && strictEquals v (staking prefixes)
    then inr {| ex_version := VNum v; ex_hash := rest; ex_type := "staking" |}
    else inl (UnknownPivxAddressPrefix v)).
  { subst single.
    destruct (Nat.ltb_spec (length payload) 21) as [Hlt|_];
      [subst payload; simpl in Hlt; lia|].
    subst payload. unfold index, slice.
    cbn [bind emit ret app skipn nth_error option_map]. fold prefixes v.
    split_ifs; reflexivity. }
  clearbody single.
  destruct (exchange (pivxPrefixes network)) as [n|ex] eqn:Hex; [exact Hsingle|].
  destruct (Nat.leb_spec (length ex + 20) (length payload)) as [Hge|_];
    [|exact Hsingle].
  unfold slice at 1. cbn [bind emit ret app result snd skipn].
  destruct (versionEquals _ _) eqn:E; [|exact Hsingle].
  apply versionEquals_spec in E. injection E as E.
  exfalso. exact (Hno ex eq_refl Hge E).
Qed.

(** What a success of [extractVersion] says about the payload and the
    registry. *)
Lemma extractVersion_success_inv (payload : Uint8Array) (network : PivxNetwork)
    (r : Extracted) :
  result (extractVersion payload network) = inr r ->
  let prefixes := pivxPrefixes network in
  (exists ex : list Z,
     exchange prefixes = VArr ex /\
     length ex + 20 <= length payload /\
     Array_from (firstn (length ex) payload) = ex /\
     r = {| ex_version := VArr ex; ex_hash := skipn (length ex) payload;
            ex_type := "exchange" |}) \/
  (exists (b0 : byte) (rest : Uint8Array),
     payload = b0 :: rest /\ 20 <= length rest /\
     ex_version r = VNum (byte_to_Z b0) /\ ex_hash r = rest /\
     ((ex_type r = "p2pkh" /\ pubKeyHash prefixes = VNum (byte_to_Z b0)) \/
      (ex_type r = "p2sh" /\ scriptHash prefixes = VNum (byte_to_Z b0)) \/
      (ex_type r = "staking" /\ staking prefixes = VNum (byte_to_Z b0)))).
Proof.
  intros Hr prefixes. revert Hr. unfold extractVersion. rewrite result_bind.
  name_single_stage single.
  assert (Hsingle : result single = inr r ->
    exists (b0 : byte) (rest : Uint8Array),
      payload = b0 :: rest /\ 20 <= length rest /\
      ex_version r = VNum (byte_to_Z b0) /\ ex_hash r = rest /\
      ((ex_type r = "p2pkh" /\ pubKeyHash prefixes = VNum (byte_to_Z b0)) \/
       (ex_type r = "p2sh" /\ scriptHash prefixes = VNum (byte_to_Z b0)) \/
       (ex_type r = "staking" /\ staking prefixes = VNum (byte_to_Z b0)))).
  { subst single.
    destruct (Nat.ltb_spec (length payload) 21) as [Hlt|Hge]; [discriminate|].
    destruct payload as [|b0 rest]; [simpl in Hge; lia|].
    unfold index, slice. cbn [bind emit ret app skipn nth_error option_map].
    fold prefixes. intros Hr. exists b0, rest.
    split; [reflexivity|]. split; [simpl in Hge; lia|].
    destruct (typeofNumber (pubKeyHash prefixes) && _) eqn:E1.
    { apply single_match in E1. injection Hr as <-. auto 10. }
    destruct (typeofNumber (scriptHash prefixes) && _) eqn:E2.
    { apply single_match in E2. injection Hr as <-. auto 10. }
    destruct (typeofNumber (staking prefixes) && _) eqn:E3.
    { apply single_match in E3. injection Hr as <-. auto 10. }
    discriminate. }
  clearbody single. fold prefixes.
  destruct (exchange prefixes) as [n|ex] eqn:Hex; [right; auto|].
  destruct (Nat.leb_spec (length ex + 20) (length payload)) as [Hge|_];
    [|right; auto].
  unfold slice at 1. cbn [bind emit ret app result snd skipn].
  destruct (versionEquals _ _) eqn:E; [|right; auto].
  apply versionEquals_spec in E. injection E as E.
  unfold slice. cbn [bind emit ret app result snd].
  intros Hr. injection Hr as <-. left. exists ex. auto.
Qed.

(** ** versionEquals *)

(** X1. [versionEquals] is structural equality of version prefixes: it
    returns true exactly on two equal numbers or two arrays of the same
    length and elements; it is symmetric, and a number never equals an
    array. *)
Theorem versionEquals_structural :
  forall a b : VersionPrefix,
    (versionEquals a b = true <-> a = b) /\
    versionEquals a b = versionEquals b a /\
    (forall (n : Z) (l : list Z),
       versionEquals (VNum n) (VArr l) = false /\
       versionEquals (VArr l) (VNum n) = false).
Proof.
  intros a b. split; [apply versionEquals_spec|]. split; [|split; reflexivity].
  destruct (versionEquals a b) eqn:Eab, (versionEquals b a) eqn:Eba; try reflexivity.
  - apply versionEquals_spec in Eab. subst b.
    rewrite (proj2 (versionEquals_spec a a) eq_refl) in Eba. discriminate.
  - apply versionEquals_spec in Eba. subst b.
    rewrite (proj2 (versionEquals_spec a a) eq_refl) in Eab. discriminate.
Qed.

(** ** The matcher on any registry *)

(** X2. On every registry, a payload of fewer than 20 bytes (the empty
    payload included) fails with "Address payload too short" before any byte
    is read or sliced. *)
Theorem under_20_bytes_rejected_everywhere :
  forall (payload : Uint8Array) (network : PivxNetwork),
    length payload < 20 ->
    extractVersion payload network = ([], inl AddressPayloadTooShort).
Proof.
  intros payload network Hlen. unfold extractVersion.
  assert (Hlt : (length payload <? 21)%nat = true) by (apply Nat.ltb_lt; lia).
  destruct (exchange (pivxPrefixes network)) as [n|ex].
  - cbn [bind ret app]. now rewrite Hlt.
  - destruct (Nat.leb_spec (length ex + 20) (length payload)) as [|_]; [lia|].
    cbn [bind ret app]. now rewrite Hlt.
Qed.

Lemma under_20_bytes_rejected_everywhere_witness :
  length (@nil byte) < 20 /\
  extractVersion [] shadowed = ([], inl AddressPayloadTooShort).
Proof.
  assert (Hlen : length (@nil byte) < 20) by (simpl; lia).
  split; [exact Hlen|].
  exact (under_20_bytes_rejected_everywhere [] shadowed Hlen).
Defined.

(** X3. Whatever array the exchange slot of a registry holds, a payload that
    starts with its bytes and has 20 more bytes or more is classified
    'exchange', with the slot as version and the rest of the payload as
    hash; the single-byte slots are not looked at and [payload[0]] is not
    read. *)
Theorem multibyte_prefix_has_priority :
  forall (payload : Uint8Array) (network : PivxNetwork) (ex : list Z),
    exchange (pivxPrefixes network) = VArr ex ->
    length ex + 20 <= length payload ->
    Array_from (firstn (length ex) payload) = ex ->
    result (extractVersion payload network) =
      inr {| ex_version := VArr ex;
             ex_hash := skipn (length ex) payload;
             ex_type := "exchange" |} /\
    (forall i, ~ In (EvIndex i) (trace (extractVersion payload network))).
Proof.
  intros payload network ex Hex Hlen Hpre.
  rewrite (extractVersion_multibyte payload network ex Hex Hlen Hpre).
  split; [reflexivity|].
  intros i [H|[H|[]]]; discriminate.
Qed.

Lemma multibyte_prefix_has_priority_witness :
  length [0x0d; 0x1e]%Z + 20 <= length (x0d :: x1e :: repeat x00 20) /\
  result (extractVersion (x0d :: x1e :: repeat x00 20) twoByteExchange) =
    inr {| ex_version := VArr [0x0d; 0x1e]%Z; ex_hash := repeat x00 20;
           ex_type := "exchange" |}.
Proof.
  assert (Hlen : length [0x0d; 0x1e]%Z + 20 <= length (x0d :: x1e :: repeat x00 20))
    by (simpl; lia).
  split; [exact Hlen|].
  exact (proj1 (multibyte_prefix_has_priority (x0d :: x1e :: repeat x00 20)
                  twoByteExchange [0x0d; 0x1e]%Z eq_refl Hlen eq_refl)).
Defined.

(** ** The codec on any registry *)

Section Further.

Variable encode : Uint8Array -> string.
Variable decode : string -> string + Uint8Array.
Variable ops : OpcodeTable.
Variable bscript_compile : list Chunk -> Uint8Array.

(** X4. For a 20-byte hash and a version that is a byte value or an array,
    [encodePivxAddress] does not fail: it allocates one buffer of the size
    of the prefix plus 20 and hands to [bs58check.encode] the prefix bytes
    followed by the hash. *)
Theorem encode_assembles_prefix_then_hash :
  forall (h : Uint8Array) (version : VersionPrefix),
    length h = 20 ->
    (forall v, version = VNum v -> isByte v) ->
    encodePivxAddress encode h version =
      ([EvAlloc (length (prefixBytes version) + 20);
        EvEncode (prefixBytes version ++ h)],
       inr (encode (prefixBytes version ++ h))).
Proof.
  intros h [v|vs] L Hv.
  - destruct (Hv v eq_refl) as [_ Hle]. now apply encode_single.
  - rewrite encode_multi by exact L. cbn [prefixBytes]. now rewrite length_map.
Qed.

(** X5. Decoding then encoding gives the payload back, on every registry:
    when [parsePivxBase58Address] returns for an address, [encodePivxAddress]
    on the returned hash and version succeeds and hands to [bs58check.encode]
    exactly the payload the address decoded to. *)
Theorem decode_then_encode_restores_payload :
  forall (address : string) (network : PivxNetwork)
         (payload : Uint8Array) (parsed : ParsedPivxAddress),
    decode address = inr payload ->
    result (parsePivxBase58Address decode address network) = inr parsed ->
    prefixBytes (version parsed) ++ hash parsed = payload /\
    encodePivxAddress encode (hash parsed) (version parsed) =
      ([EvAlloc (length payload); EvEncode payload], inr (encode payload)).
Proof.
  intros address network payload parsed Hdec Hp.
  destruct (parse_success _ _ _ _ Hp) as [L _].
  rewrite parse_result, Hdec in Hp.
  destruct (result (extractVersion payload network)) as [e|r] eqn:Hr; [discriminate|].
  destruct (length (ex_hash r) =? 20)%nat; [|discriminate].
  injection Hp as <-. cbn [hash version] in *.
  apply extractVersion_success_inv in Hr.
  destruct Hr as [(ex & Hex & Hge & Hpre & ->)|(b0 & rest & -> & Hrest & Hv & Hh & _)].
  - cbn [ex_hash ex_version] in *.
    assert (Hpay : map ToUint8 ex ++ skipn (length ex) payload = payload).
    { rewrite <- Hpre at 1. rewrite ToUint8_Array_from. apply firstn_skipn. }
    split; [exact Hpay|].
    rewrite encode_multi by exact L. rewrite Hpay.
    replace (length ex + 20) with (length payload); [reflexivity|].
    rewrite <- Hpay at 1. rewrite length_app, length_map, L. reflexivity.
  - rewrite Hv, Hh in *. cbn [prefixBytes]. rewrite ToUint8_byte_to_Z.
    split; [reflexivity|].
    rewrite encode_single by (exact L || (pose proof (byte_to_Z_range b0); lia)).
    rewrite ToUint8_byte_to_Z. cbn [length]. rewrite L. reflexivity.
Qed.

(** X6. On every registry, the version [parsePivxBase58Address] returns is
    the prefix the registry holds in the slot of the returned type: 'p2pkh'
    comes with the [pubKeyHash] slot, 'p2sh' with [scriptHash], 'staking'
    with [staking], 'exchange' with [exchange]. *)
Theorem parsed_version_is_registry_slot :
  forall (address : string) (network : PivxNetwork) (parsed : ParsedPivxAddress),
    result (parsePivxBase58Address decode address network) = inr parsed ->
    exists c : AddressClass,
      type parsed = typeOfClass c /\
      version parsed = registered (pivxPrefixes network) c.
Proof.
  intros address network parsed Hp. rewrite parse_result in Hp.
  destruct (decode address) as [msg|payload]; [discriminate|].
  destruct (result (extractVersion payload network)) as [e|r] eqn:Hr; [discriminate|].
  destruct (length (ex_hash r) =? 20)%nat; [|discriminate].
  injection Hp as <-. cbn [type version].
  apply extractVersion_success_inv in Hr.
  destruct Hr as [(ex & Hex & _ & _ & ->)
                 |(b0 & rest & _ & _ & Hv & _ & [[Ht Hs]|[[Ht Hs]|[Ht Hs]]])].
  - exists Exchange. split; [reflexivity|]. cbn [registered ex_version].
    symmetry. exact Hex.
  - exists PubKeyHash. cbn [typeOfClass registered]. now rewrite Ht, Hv, Hs.
  - exists ScriptHash. cbn [typeOfClass registered]. now rewrite Ht, Hv, Hs.
  - exists Staking. cbn [typeOfClass registered]. now rewrite Ht, Hv, Hs.
Qed.

(** X7. On the PIVX registry the payloads that decode are exactly the
    payloads of 21 bytes whose first byte is 0x1e, 0x0d or 0x3f and the
    payloads of 23 bytes that start with 0x01 0xb9 0xa2. *)
Theorem pivx_valid_payloads :
  forall (address : string) (payload : Uint8Array),
    decode address = inr payload ->
    (exists parsed : ParsedPivxAddress,
       result (parsePivxBase58Address decode address pivx) = inr parsed) <->
    (length payload = 21 /\
     exists (b : byte) (rest : Uint8Array),
       payload = b :: rest /\ In b [x1e; x0d; x3f]) \/
    (length payload = 23 /\ firstn 3 payload = exchangeBytes).
Proof.
  intros address payload Hdec. split.
  - intros [parsed Hp]. destruct (parse_success _ _ _ _ Hp) as [L _].
    rewrite parse_result, Hdec in Hp.
    destruct (result (extractVersion payload pivx)) as [e|r] eqn:Hr; [discriminate|].
    destruct (length (ex_hash r) =? 20)%nat; [|discriminate].
    injection Hp as <-. cbn [hash] in L.
    apply extractVersion_success_inv in Hr.
    destruct Hr as [(ex & Hex & Hge & Hpre & ->)
                   |(b0 & rest & -> & _ & _ & Hh & Hslot)].
    + injection Hex as <-. cbn [ex_hash length] in *.
      right. split; [rewrite length_skipn in L; lia|].
      now apply exchangeBytes_numbers.
    + rewrite Hh in L. left. split; [simpl; lia|].
      exists b0, rest. split; [reflexivity|].
      cbn [pivx pivxPrefixes pubKeyHash scriptHash staking] in Hslot.
      destruct Hslot as [[_ E]|[[_ E]|[_ E]]]; injection E as E.
      * change 30%Z with (byte_to_Z x1e) in E. apply byte_to_Z_inj in E.
        subst. simpl. auto.
      * change 13%Z with (byte_to_Z x0d) in E. apply byte_to_Z_inj in E.
        subst. simpl. auto.
      * change 63%Z with (byte_to_Z x3f) in E. apply byte_to_Z_inj in E.
        subst. simpl. auto.
  - intros [[L (b & rest & -> & Hb)]|[L Hpre]]; rewrite parse_result, Hdec.
    + assert (Lr : length rest = 20) by (simpl in L; lia).
      rewrite (extractVersion_singlebyte (b :: rest) pivx b rest eq_refl eq_refl)
        by (rewrite ?L; lia).
      destruct Hb as [<-|[<-|[<-|[]]]]; simpl; rewrite Lr; eexists; reflexivity.
    + rewrite (extractVersion_multibyte payload pivx [1; 185; 162]%Z eq_refl)
        by (cbn [length]; rewrite ?L, ?Hpre; lia || reflexivity).
      cbn [result snd ex_hash length]. rewrite length_skipn, L.
      eexists; reflexivity.
Qed.

(** X8. With a Base58Check primitive whose [decode] inverts its [encode], the
    addresses of one 20-byte hash under two different classes of the PIVX
    registry are different strings. *)
Theorem class_addresses_distinct :
  (forall b : Uint8Array, decode (encode b) = inr b) ->
  forall (H : Uint8Array) (c1 c2 : AddressClass),
    length H = 20 ->
    c1 <> c2 ->
    exists a1 a2 : string,
      result (encodePivxAddress encode H (registered (pivxPrefixes pivx) c1)) = inr a1 /\
      result (encodePivxAddress encode H (registered (pivxPrefixes pivx) c2)) = inr a2 /\
      a1 <> a2.
Proof.
  intros Hrt H c1 c2 L Hc.
  assert (Henc : forall c,
    result (encodePivxAddress encode H (registered (pivxPrefixes pivx) c)) =
      inr (encode (prefixBytes (registered (pivxPrefixes pivx) c) ++ H))).
  { intros c. destruct c; cbn [registered pivx pivxPrefixes pubKeyHash scriptHash
                                staking exchange];
      rewrite ?encode_single, ?encode_multi by (exact L || lia); reflexivity. }
  exists (encode (prefixBytes (registered (pivxPrefixes pivx) c1) ++ H)),
         (encode (prefixBytes (registered (pivxPrefixes pivx) c2) ++ H)).
  split; [apply Henc|]. split; [apply Henc|].
  intros E. apply (f_equal decode) in E. rewrite !Hrt in E. injection E as E.
  apply Hc. destruct c1, c2; try reflexivity; simpl in E; discriminate.
Qed.

(** The payload of a class of a well-formed registry decodes to the class. *)
Lemma wellFormed_payload_parses (network : PivxNetwork) (H : Uint8Array)
    (c : AddressClass) (address : string) :
  wellFormedRegistry (pivxPrefixes network) ->
  length H = 20 ->
  decode address = inr (prefixBytes (registered (pivxPrefixes network) c) ++ H) ->
  result (parsePivxBase58Address decode address network) =
    inr {| type := typeOfClass c;
           version := registered (pivxPrefixes network) c;
           hash := H |}.
Proof.
  intros (p & s & k & ex & Hp & Hs & Hk & Hex & Bp & Bs & Bk & Bex & Nps & Npk & Nsk & Lex)
         L Hdec.
  rewrite parse_result, Hdec.
  assert (Hsingle : forall v, isByte v ->
    result (extractVersion (ToUint8 v :: H) network) =
      if (v =? p)%Z
      then inr {| ex_version := VNum v; ex_hash := H; ex_type := "p2pkh" |}
      else if (v =? s)%Z
      then inr {| ex_version := VNum v; ex_hash := H; ex_type := "p2sh" |}
      else if (v =? k)%Z
      then inr {| ex_version := VNum v; ex_hash := H; ex_type := "staking" |}
      else inl (UnknownPivxAddressPrefix v)).
  { intros v Bv.
    rewrite (extractVersion_single_result (ToUint8 v :: H) network (ToUint8 v) H eq_refl).
    - rewrite Hp, Hs, Hk, byte_to_Z_ToUint8 by exact Bv. reflexivity.
    - lia.
    - intros ex' Hex' Hge. rewrite Hex in Hex'. injection Hex' as <-.
      simpl in Hge. lia. }
  destruct c; cbn [registered typeOfClass prefixBytes app];
    rewrite ?Hp, ?Hs, ?Hk, ?Hex; cbn [prefixBytes app].
  - rewrite Hsingle by exact Bp. rewrite Z.eqb_refl. cbn [ex_hash ex_type ex_version].
    now rewrite L.
  - rewrite Hsingle by exact Bs.
    rewrite (proj2 (Z.eqb_neq s p)) by congruence. rewrite Z.eqb_refl.
    cbn [ex_hash ex_type ex_version]. now rewrite L.
  - rewrite Hsingle by exact Bk.
    rewrite (proj2 (Z.eqb_neq k p)), (proj2 (Z.eqb_neq k s)) by congruence.
    rewrite Z.eqb_refl. cbn [ex_hash ex_type ex_version]. now rewrite L.
  - assert (Hfirst : firstn (length ex) (map ToUint8 ex ++ H) = map ToUint8 ex).
    { rewrite <- (length_map ToUint8 ex), firstn_app, Nat.sub_diag, firstn_O,
        app_nil_r. apply firstn_all. }
    assert (Hskip : skipn (length ex) (map ToUint8 ex ++ H) = H).
    { rewrite <- (length_map ToUint8 ex), skipn_app, Nat.sub_diag, skipn_all.
      reflexivity. }
    rewrite (extractVersion_multibyte (map ToUint8 ex ++ H) network ex Hex).
    + cbn [result snd ex_hash ex_type ex_version]. rewrite Hskip, L. reflexivity.
    + rewrite length_app, length_map, L. lia.
    + rewrite Hfirst. now apply Array_from_ToUint8.
Qed.

(** X9. The round trip holds on every well-formed registry (three distinct
    byte values in the single-byte slots, an array of two byte values or more
    in the exchange slot): with [decode] inverting [encode], the address
    [encodePivxAddress] builds from a 20-byte hash and the prefix of a class
    decodes to that class, that prefix and that hash. *)
Theorem wellFormed_registry_roundtrip :
  (forall b : Uint8Array, decode (encode b) = inr b) ->
  forall (network : PivxNetwork) (H : Uint8Array) (c : AddressClass),
    wellFormedRegistry (pivxPrefixes network) ->
    length H = 20 ->
    exists address : string,
      result (encodePivxAddress encode H (registered (pivxPrefixes network) c)) =
        inr address /\
      result (parsePivxBase58Address decode address network) =
        inr {| type := typeOfClass c;
               version := registered (pivxPrefixes network) c;
               hash := H |}.
Proof.
  intros Hrt network H c Hwf L.
  exists (encode (prefixBytes (registered (pivxPrefixes network) c) ++ H)).
  split; [|now apply wellFormed_payload_parses].
  destruct Hwf as (p & s & k & ex & Hp & Hs & Hk & Hex & Bp & Bs & Bk & _).
  destruct c; cbn [registered]; rewrite ?Hp, ?Hs, ?Hk, ?Hex;
    rewrite ?encode_single, ?encode_multi by (exact L || (unfold isByte in *; lia));
    reflexivity.
Qed.

(** X10. On every well-formed registry, [encodePivxExchangeAddress] and
    [encodePivxStakingAddress] build addresses that decode to the types
    'exchange' and 'staking', with the registry's prefix and the hash. *)
Theorem convenience_encoders_roundtrip :
  (forall b : Uint8Array, decode (encode b) = inr b) ->
  forall (network : PivxNetwork) (H : Uint8Array),
    wellFormedRegistry (pivxPrefixes network) ->
    length H = 20 ->
    (exists address : string,
       result (encodePivxExchangeAddress encode H network) = inr address /\
       result (parsePivxBase58Address decode address network) =
         inr {| type := "exchange"; version := exchange (pivxPrefixes network);
                hash := H |}) /\
    (exists address : string,
       result (encodePivxStakingAddress encode H network) = inr address /\
       result (parsePivxBase58Address decode address network) =
         inr {| type := "staking"; version := staking (pivxPrefixes network);
                hash := H |}).
Proof.
  intros Hrt network H Hwf L.
  pose proof (wellFormed_payload_parses network H Exchange) as Hx.
  pose proof (wellFormed_payload_parses network H Staking) as Hk.
  destruct Hwf as (p & s & k & ex & Hp & Hs & Hks & Hex & Bp & Bs & Bk & Hrest).
  assert (Hwf : wellFormedRegistry (pivxPrefixes network))
    by (exists p, s, k, ex; auto 20).
  unfold encodePivxExchangeAddress, encodePivxStakingAddress.
  cbn [registered typeOfClass] in Hx, Hk. split.
  - exists (encode (prefixBytes (exchange (pivxPrefixes network)) ++ H)).
    split; [|now apply Hx].
    rewrite Hex, encode_multi by exact L. reflexivity.
  - exists (encode (prefixBytes (staking (pivxPrefixes network)) ++ H)).
    split; [|now apply Hk].
    rewrite Hks, encode_single by (exact L || (unfold isByte in *; lia)). reflexivity.
Qed.

(** ** Failures of the decode *)

(** X11. A failure of [bs58check.decode] comes out of
    [parsePivxBase58Address] and of [pivxAddressToOutputScript] as it is, with
    the message of the primitive; nothing else has been run: the log holds
    the call of the primitive alone. *)
Theorem base58check_failure_propagates :
  forall (address : string) (network : PivxNetwork) (msg : string),
    decode address = inl msg ->
    parsePivxBase58Address decode address network =
      ([EvDecode address], inl (Bs58checkError msg)) /\
    pivxAddressToOutputScript decode ops bscript_compile address network =
      ([EvDecode address], inl (Bs58checkError msg)) /\
    message (Bs58checkError msg) = msg.
Proof.
  intros address network msg Hdec.
  assert (Hp : parsePivxBase58Address decode address network =
               ([EvDecode address], inl (Bs58checkError msg))).
  { unfold parsePivxBase58Address, bs58check_decode. rewrite Hdec. reflexivity. }
  split; [exact Hp|]. split; [|reflexivity].
  unfold pivxAddressToOutputScript. rewrite Hp. reflexivity.
Qed.


(** X13. On the PIVX registry, an address whose payload starts with 0x1e,
    0x0d or 0x3f and has more than 20 bytes after it is refused with
    "Invalid hash length" carrying the number of those bytes, also when the
    payload has the 23 bytes of an exchange address. *)
Theorem overlong_singlebyte_payload_rejected :
  forall (address : string) (b : byte) (rest : Uint8Array),
    decode address = inr (b :: rest) ->
    In b [x1e; x0d; x3f] ->
    20 < length rest ->
    result (parsePivxBase58Address decode address pivx) =
      inl (InvalidHashLength (length rest)).
Proof.
  intros address b rest Hdec Hb Hlen.
  rewrite parse_result, Hdec.
  assert (Hno : ~ (23 <= length (b :: rest) /\ firstn 3 (b :: rest) = exchangeBytes)).
  { intros [_ E]. destruct rest as [|r1 [|r2 rest]]; simpl in E; try discriminate.
    injection E as -> _ _. destruct Hb as [E|[E|[E|[]]]]; discriminate. }
  rewrite (extractVersion_singlebyte (b :: rest) pivx b rest eq_refl eq_refl)
    by (lia || exact Hno).
  destruct (Nat.eqb_spec (length rest) 20) as [E|Hne]; [lia|].
  destruct Hb as [<-|[<-|[<-|[]]]]; simpl;
    rewrite (proj2 (Nat.eqb_neq (length rest) 20) Hne); reflexivity.
Qed.

(** ** Script projection for any compiler *)

(** X14. The log of [pivxAddressToOutputScript] is the log of the decode
    followed, when the decode returned, by one call of [bscript.compile] on
    the chunks of the returned type; when the decode failed the compiler is
    not called and the error of the decode is the error of the call. *)
Theorem script_calls_compile_once :
  forall (address : string) (network : PivxNetwork),
    let parse := parsePivxBase58Address decode address network in
    let script := pivxAddressToOutputScript decode ops bscript_compile address network in
    trace script =
      trace parse ++
      match result parse with
      | inl _ => []
      | inr parsed => [EvCompile (chunksOf ops parsed)]
      end /\
    match result parse with
    | inl e => result script = inl e
    | inr parsed => result script = inr (bscript_compile (chunksOf ops parsed))
    end.
Proof.
  intros address network parse script. subst script.
  unfold pivxAddressToOutputScript. fold parse. rewrite trace_bind, result_bind.
  destruct (result parse) as [e|parsed] eqn:Hp; [split; reflexivity|].
  destruct (parse_success _ _ _ _ Hp) as [_ Hin]. unfold chunksOf.
  destruct Hin as [E|[E|[E|[E|[]]]]]; rewrite <- E; split; reflexivity.
Qed.

(** X15. For any script compiler and opcode table, a 'p2pkh' address and a
    'staking' address of the same hash have the same output script, the one
    compiled from DUP HASH160 <hash> EQUALVERIFY CHECKSIG. *)
Theorem staking_script_is_p2pkh_script :
  forall (network : PivxNetwork) (a1 a2 : string) (p1 p2 : ParsedPivxAddress),
    result (parsePivxBase58Address decode a1 network) = inr p1 ->
    result (parsePivxBase58Address decode a2 network) = inr p2 ->
    type p1 = "p2pkh" ->
    type p2 = "staking" ->
    hash p1 = hash p2 ->
    result (toOutputScript decode ops bscript_compile a1 network) =
      inr (bscript_compile (p2pkhChunks ops (hash p1))) /\
    result (toOutputScript decode ops bscript_compile a2 network) =
      result (toOutputScript decode ops bscript_compile a1 network).
Proof.
  intros network a1 a2 p1 p2 H1 H2 T1 T2 Hh. unfold toOutputScript.
  rewrite !script_result, H1, H2, T1, T2, Hh. split; reflexivity.
Qed.

End Further.


(** ** The further properties on concrete inputs *)

Lemma pivx_wellFormed : wellFormedRegistry (pivxPrefixes pivx).
Proof.
  exists 0x1e%Z, 0x0d%Z, 0x3f%Z, [0x01; 0xb9; 0xa2]%Z. unfold isByte.
  repeat split; try lia; try discriminate; simpl; try lia.
  repeat constructor; lia.
Qed.

Lemma twoByteExchange_wellFormed : wellFormedRegistry (pivxPrefixes twoByteExchange).
Proof.
  exists 0x1e%Z, 0x0d%Z, 0x3f%Z, [0x0d; 0x1e]%Z. unfold isByte.
  repeat split; try lia; try discriminate; simpl; try lia.
  repeat constructor; lia.
Qed.

Lemma encode_assembles_prefix_then_hash_witness :
  length (repeat x12 20) = 20 /\
  encodePivxAddress raw_encode (repeat x12 20) (VNum 0x1e) =
    ([EvAlloc 21; EvEncode (x1e :: repeat x12 20)],
     inr (raw_encode (x1e :: repeat x12 20))).
Proof.
  split; [reflexivity|].
  refine (encode_assembles_prefix_then_hash raw_encode (repeat x12 20) (VNum 0x1e)
            eq_refl _).
  intros v E. injection E as <-. unfold isByte. lia.
Defined.

Lemma decode_then_encode_restores_payload_witness :
  raw_decode (raw_encode (x3f :: repeat x56 20)) = inr (x3f :: repeat x56 20) /\
  result (parsePivxBase58Address raw_decode (raw_encode (x3f :: repeat x56 20)) pivx) =
    inr {| type := "staking"; version := VNum 0x3f; hash := repeat x56 20 |} /\
  encodePivxAddress raw_encode (repeat x56 20) (VNum 0x3f) =
    ([EvAlloc 21; EvEncode (x3f :: repeat x56 20)],
     inr (raw_encode (x3f :: repeat x56 20))).
Proof.
  split; [reflexivity|]. split; [reflexivity|].
  exact (proj2 (decode_then_encode_restores_payload raw_encode raw_decode
                  (raw_encode (x3f :: repeat x56 20)) pivx (x3f :: repeat x56 20)
                  {| type := "staking"; version := VNum 0x3f; hash := repeat x56 20 |}
                  eq_refl eq_refl)).
Defined.

Lemma parsed_version_is_registry_slot_witness :
  result (parsePivxBase58Address raw_decode
            (raw_encode (x0d :: x1e :: repeat x34 20)) twoByteExchange) =
    inr {| type := "exchange"; version := VArr [0x0d; 0x1e]%Z; hash := repeat x34 20 |} /\
  exists c : AddressClass,
    "exchange" = typeOfClass c /\
    VArr [0x0d; 0x1e]%Z = registered (pivxPrefixes twoByteExchange) c.
Proof.
  split; [reflexivity|].
  exact (parsed_version_is_registry_slot raw_decode
           (raw_encode (x0d :: x1e :: repeat x34 20)) twoByteExchange
           {| type := "exchange"; version := VArr [0x0d; 0x1e]%Z; hash := repeat x34 20 |}
           eq_refl).
Defined.

Lemma pivx_valid_payloads_witness :
  raw_decode (raw_encode (exchangeBytes ++ repeat x78 20)) =
    inr (exchangeBytes ++ repeat x78 20) /\
  exists parsed : ParsedPivxAddress,
    result (parsePivxBase58Address raw_decode
              (raw_encode (exchangeBytes ++ repeat x78 20)) pivx) = inr parsed.
Proof.
  split; [reflexivity|].
  exact (proj2 (pivx_valid_payloads raw_decode
                  (raw_encode (exchangeBytes ++ repeat x78 20))
                  (exchangeBytes ++ repeat x78 20) eq_refl)
           (or_intror (conj eq_refl eq_refl))).
Defined.

Lemma class_addresses_distinct_witness :
  PubKeyHash <> Staking /\
  exists a1 a2 : string,
    result (encodePivxAddress raw_encode (repeat x42 20) (VNum 0x1e)) = inr a1 /\
    result (encodePivxAddress raw_encode (repeat x42 20) (VNum 0x3f)) = inr a2 /\
    a1 <> a2.
Proof.
  assert (Hc : PubKeyHash <> Staking) by discriminate.
  split; [exact Hc|].
  exact (class_addresses_distinct raw_encode raw_decode raw_codec_roundtrip
           (repeat x42 20) PubKeyHash Staking eq_refl Hc).
Defined.

Lemma wellFormed_registry_roundtrip_witness :
  wellFormedRegistry (pivxPrefixes twoByteExchange) /\
  exists address : string,
    result (encodePivxAddress raw_encode (repeat x34 20) (VNum 0x0d)) = inr address /\
    result (parsePivxBase58Address raw_decode address twoByteExchange) =
      inr {| type := "p2sh"; version := VNum 0x0d; hash := repeat x34 20 |}.
Proof.
  split; [exact twoByteExchange_wellFormed|].
  exact (wellFormed_registry_roundtrip raw_encode raw_decode raw_codec_roundtrip
           twoByteExchange (repeat x34 20) ScriptHash twoByteExchange_wellFormed eq_refl).
Defined.

Lemma convenience_encoders_roundtrip_witness :
  (exists address : string,
     result (encodePivxExchangeAddress raw_encode (repeat x99 20) pivx) = inr address /\
     result (parsePivxBase58Address raw_decode address pivx) =
       inr {| type := "exchange"; version := VArr [0x01; 0xb9; 0xa2]%Z;
              hash := repeat x99 20 |}) /\
  (exists address : string,
     result (encodePivxStakingAddress raw_encode (repeat x99 20) pivx) = inr address /\
     result (parsePivxBase58Address raw_decode address pivx) =
       inr {| type := "staking"; version := VNum 0x3f; hash := repeat x99 20 |}).
Proof.
  exact (convenience_encoders_roundtrip raw_encode raw_decode raw_codec_roundtrip
           pivx (repeat x99 20) pivx_wellFormed eq_refl).
Defined.

Lemma base58check_failure_propagates_witness :
  checked_decode EmptyString = inl "Invalid checksum" /\
  pivxAddressToOutputScript checked_decode script_ops compile_model EmptyString pivx =
    ([EvDecode EmptyString], inl (Bs58checkError "Invalid checksum")).
Proof.
  split; [reflexivity|].
  exact (proj1 (proj2 (base58check_failure_propagates checked_decode script_ops
                         compile_model EmptyString pivx "Invalid checksum" eq_refl))).
Defined.


Lemma overlong_singlebyte_payload_rejected_witness :
  In x1e [x1e; x0d; x3f] /\
  20 < length (repeat x00 22) /\
  result (parsePivxBase58Address raw_decode (raw_encode (x1e :: repeat x00 22)) pivx) =
    inl (InvalidHashLength 22).
Proof.
  assert (Hin : In x1e [x1e; x0d; x3f]) by (simpl; auto).
  assert (Hlen : 20 < length (repeat x00 22)) by (simpl; lia).
  split; [exact Hin|]. split; [exact Hlen|].
  exact (overlong_singlebyte_payload_rejected raw_decode
           (raw_encode (x1e :: repeat x00 22)) x1e (repeat x00 22) eq_refl Hin Hlen).
Defined.

Lemma staking_script_is_p2pkh_script_witness :
  result (toOutputScript raw_decode script_ops compile_model
            (raw_encode (x1e :: repeat x56 20)) pivx) =
    inr ([x76; xa9; x14] ++ repeat x56 20 ++ [x88; xac]) /\
  result (toOutputScript raw_decode script_ops compile_model
            (raw_encode (x3f :: repeat x56 20)) pivx) =
  result (toOutputScript raw_decode script_ops compile_model
            (raw_encode (x1e :: repeat x56 20)) pivx).
Proof.
  exact (staking_script_is_p2pkh_script raw_decode script_ops compile_model pivx
           (raw_encode (x1e :: repeat x56 20)) (raw_encode (x3f :: repeat x56 20))
           {| type := "p2pkh"; version := VNum 0x1e; hash := repeat x56 20 |}
           {| type := "staking"; version := VNum 0x3f; hash := repeat x56 20 |}
           eq_refl eq_refl eq_refl eq_refl eq_refl).
Defined.
